(** * Snapchat Memories Downloader GUI: the form-to-process bridge

    A shallow embedding of [snapchat_memories_gui.py]: the command builder
    ([_build_args], [_display_arg], [_update_command_preview]), the toggle
    handlers that keep the check boxes mutually exclusive, the progress
    marker scanner ([_maybe_update_progress]) and the process supervisor
    ([_start_process], [_stop_process], [_handle_process_output],
    [_handle_process_finished]).

    Modelling conventions.
    - A Python [str] is a sequence of Unicode code points ([list N]).
    - A Python [int] is a [Z].  [int()] converts a string of at most 4300
      digits, the interpreter's default limit, and raises [ValueError] on a
      longer one.  A parameter that the toolkit declares as a C [int] takes
      the values from -2^31 to 2^31-1: for any other value the binding
      raises [OverflowError] and the call is not made.
    - A handler ends as an [outcome]: it returns, or an exception leaves
      it after the calls made until then.  The program catches no
      exception and installs no exception hook, so a session is followed
      only as long as its handlers return.
    - Widgets the program reads back (combo box, line edits, check boxes,
      spin box, the process handle) are fields of the record [gui].
    - Widgets the program only writes to (progress bar, status label, log,
      buttons, preview, message boxes) and the requests sent to the child
      process are recorded, in order, in the field [calls]: each entry is a
      method call with the arguments the program passed.  What the toolkit
      does with a call that it accepts is not part of this program.
    - What the program reads from its environment (the file system, the
      interpreter path, the Unicode decimal-digit table, the answer of a
      bounded wait) is a parameter.  A query to the file system answers,
      or raises [OSError]. *)

From Stdlib Require Import ZArith NArith List Bool String Ascii Lia DecimalPos.
From Stdlib Require DecimalFacts.
Import ListNotations.
Local Open Scope Z_scope.

(** ** Python strings *)

Module PyStr.

Definition char := N.
Definition str := list char.

(** An ASCII literal of the source, as code points. *)
Definition lit (s : string) : str := map N_of_ascii (list_ascii_of_string s).

(** Truth value of a string: non-empty. *)
Definition nonempty (s : str) : bool :=
  match s with
  | [] => false
  | _ :: _ => true
  end.

(** [ch.isspace()]: the white-space code points of the Unicode database
    (general category Zs, or bidirectional class WS, B or S). *)
Definition isspace (c : char) : bool :=
  (((0x09 <=? c) && (c <=? 0x0D)) || ((0x1C <=? c) && (c <=? 0x1F))
   || (c =? 0x20) || (c =? 0x85) || (c =? 0xA0) || (c =? 0x1680)
   || ((0x2000 <=? c) && (c <=? 0x200A))
   || (c =? 0x2028) || (c =? 0x2029) || (c =? 0x202F) || (c =? 0x205F)
   || (c =? 0x3000))%N.

Fixpoint lstrip (s : str) : str :=
  match s with
  | [] => []
  | c :: r => if isspace c then lstrip r else s
  end.

Definition rstrip (s : str) : str := rev (lstrip (rev s)).

(** [s.strip()] *)
Definition strip (s : str) : str := rstrip (lstrip s).

(** [sep.join(parts)] *)
Fixpoint join (sep : str) (parts : list str) : str :=
  match parts with
  | [] => []
  | [p] => p
  | p :: rest => p ++ sep ++ join sep rest
  end.

(** Line boundaries recognised by [str.splitlines]. *)
Definition islinebreak (c : char) : bool :=
  (((0x0A <=? c) && (c <=? 0x0D)) || ((0x1C <=? c) && (c <=? 0x1E))
   || (c =? 0x85) || (c =? 0x2028) || (c =? 0x2029))%N.

(** [splitlines_from cur s]: [cur] is the current line, reversed. *)
Fixpoint splitlines_from (cur : str) (s : str) : list str :=
  match s with
  | [] => if nonempty cur then [rev cur] else []
  | c :: rest =>
      if (c =? 0x0D)%N then
        match rest with
        | c' :: rest' =>
            if (c' =? 0x0A)%N then rev cur :: splitlines_from [] rest'
            else rev cur :: splitlines_from [] rest
        | [] => rev cur :: splitlines_from [] rest
        end
      else if islinebreak c then rev cur :: splitlines_from [] rest
      else splitlines_from (c :: cur) rest
  end.

(** [s.splitlines()] *)
Definition splitlines (s : str) : list str := splitlines_from [] s.

(** Decimal digits of a positive number, most significant first. *)
Fixpoint uint_digits (d : Decimal.uint) : str :=
  match d with
  | Decimal.Nil => []
  | Decimal.D0 r => 48%N :: uint_digits r
  | Decimal.D1 r => 49%N :: uint_digits r
  | Decimal.D2 r => 50%N :: uint_digits r
  | Decimal.D3 r => 51%N :: uint_digits r
  | Decimal.D4 r => 52%N :: uint_digits r
  | Decimal.D5 r => 53%N :: uint_digits r
  | Decimal.D6 r => 54%N :: uint_digits r
  | Decimal.D7 r => 55%N :: uint_digits r
  | Decimal.D8 r => 56%N :: uint_digits r
  | Decimal.D9 r => 57%N :: uint_digits r
  end.

(** [str(n)] for an integer [n]. *)
Definition str_of_int (n : Z) : str :=
  match n with
  | Z0 => [48%N]
  | Zpos p => uint_digits (Pos.to_uint p)
  | Zneg p => 45%N :: uint_digits (Pos.to_uint p)
  end.

(** The newline the source writes as a backslash escape, and the double
    quote. *)
Definition nl : str := [10%N].
Definition dquote : str := [34%N].

End PyStr.
Import PyStr.


(** ** Widgets, requests and the window state *)

(** The eleven check boxes of the form, in the order [_connect_signals]
    lists them. *)
Inductive checkbox :=
| resume_checkbox
| retry_failed_checkbox
| test_checkbox
| merge_overlays_checkbox
| defer_video_overlays_checkbox
| videos_only_checkbox
| pictures_only_checkbox
| overlays_only_checkbox
| timestamp_filenames_checkbox
| remove_duplicates_checkbox
| join_multi_snaps_checkbox.

Definition checkbox_eq_dec (a b : checkbox) : {a = b} + {a <> b}.
Proof. decide equality. Defined.

(** Group boxes shown or hidden by [_update_mode_ui]. *)
Inductive groupbox :=
| download_group | run_mode_group | filter_group | overlay_group
| naming_group | extra_group | merge_group.

(** [QProcess.ProcessState] *)
Inductive ProcessState := NotRunning | Starting | Running.

Inductive icon := Critical | Warning.

(** Method calls on the write-only widgets, the modal dialogs and the
    child process, with the arguments passed. *)
Inductive call :=
| QMessageBox_show (i : icon) (title text : str)
| log_output_insertText (text : str)
| progress_bar_setRange (minimum maximum : Z)
| progress_bar_setValue (value : Z)
| status_label_setText (text : str)
| start_button_setEnabled (enabled : bool)
| stop_button_setEnabled (enabled : bool)
| command_preview_setPlainText (text : str)
| group_setVisible (grp : groupbox) (visible : bool)
| process_setWorkingDirectory (dir : str)
| process_setProcessChannelMode_MergedChannels
| process_connect_readyReadStandardOutput
| process_connect_finished
| process_start (program : str) (arguments : list str)
| process_terminate
| process_waitForFinished (msecs : Z)
| process_kill.

(** Calls addressed to the child process. *)
Definition is_process_call (c : call) : bool :=
  match c with
  | process_setWorkingDirectory _ | process_setProcessChannelMode_MergedChannels
  | process_connect_readyReadStandardOutput | process_connect_finished
  | process_start _ _ | process_terminate | process_waitForFinished _
  | process_kill => true
  | _ => false
  end.

Definition is_kill (c : call) : bool :=
  match c with process_kill => true | _ => false end.

(** The window: the widgets that are read back, the process handle
    ([None] is Python's [None]; [Some st] is a [QProcess] whose [state()]
    answers [st]), and the calls made so far, oldest first. *)
Record gui := mkGui {
  mode_combo_currentIndex : Z;
  html_path_edit_text : str;
  output_path_edit_text : str;
  merge_folder_edit_text : str;
  isChecked : checkbox -> bool;
  defer_video_overlays_isEnabled : bool;
  threads_spin_value : Z;
  process : option ProcessState;
  calls : list call
}.

Definition emit (c : call) (g : gui) : gui :=
  mkGui (mode_combo_currentIndex g) (html_path_edit_text g)
        (output_path_edit_text g) (merge_folder_edit_text g) (isChecked g)
        (defer_video_overlays_isEnabled g) (threads_spin_value g)
        (process g) (calls g ++ [c]).

(** The calls [cs] made in order. *)
Definition emit_all (cs : list call) (g : gui) : gui :=
  fold_left (fun g c => emit c g) cs g.

(** The check box [cb] takes the state [b]; the others keep theirs. *)
Definition write_checked (cb : checkbox) (b : bool) (g : gui) : gui :=
  mkGui (mode_combo_currentIndex g) (html_path_edit_text g)
        (output_path_edit_text g) (merge_folder_edit_text g)
        (fun c => if checkbox_eq_dec c cb then b else isChecked g c)
        (defer_video_overlays_isEnabled g) (threads_spin_value g)
        (process g) (calls g).

(** [self.defer_video_overlays_checkbox.setEnabled(b)] *)
Definition defer_video_overlays_setEnabled (b : bool) (g : gui) : gui :=
  mkGui (mode_combo_currentIndex g) (html_path_edit_text g)
        (output_path_edit_text g) (merge_folder_edit_text g) (isChecked g)
        b (threads_spin_value g) (process g) (calls g).

(** [self.process = p] *)
Definition write_process (p : option ProcessState) (g : gui) : gui :=
  mkGui (mode_combo_currentIndex g) (html_path_edit_text g)
        (output_path_edit_text g) (merge_folder_edit_text g) (isChecked g)
        (defer_video_overlays_isEnabled g) (threads_spin_value g)
        p (calls g).

(** Only [defer_video_overlays_checkbox] is ever disabled. *)
Definition isEnabled (g : gui) (cb : checkbox) : bool :=
  match cb with
  | defer_video_overlays_checkbox => defer_video_overlays_isEnabled g
  | _ => true
  end.

(** The exceptions that can leave a handler of this program: [ValueError]
    from [int()], [OverflowError] from the binding of a C [int] parameter,
    [OSError] from a query to the file system. *)
Inductive exception := ValueError | OverflowError | OSError.

(** How a handler ends: it returns, or an exception leaves it.  Either way
    the window is as the calls made until then have left it. *)
Inductive outcome :=
| Returned (g : gui)
| Raised (e : exception) (g : gui).

Definition window_after (o : outcome) : gui :=
  match o with
  | Returned g => g
  | Raised _ g => g
  end.

(** The next statement runs if the one before it returned. *)
Definition and_next (o : outcome) (k : gui -> outcome) : outcome :=
  match o with
  | Returned g => k g
  | Raised e g => Raised e g
  end.

(** The window a handler hands back to the event loop, if it returns. *)
Definition returned (o : outcome) : option gui :=
  match o with
  | Returned g => Some g
  | Raised _ _ => None
  end.

(** The values of a C [int]. *)
Definition fits_int (v : Z) : bool :=
  (-2147483648 <=? v) && (v <=? 2147483647).

(** [self.progress_bar.setRange(minimum, maximum)] and
    [self.progress_bar.setValue(value)] through the binding, which converts
    the arguments to C [int] before it makes the call. *)
Definition progress_setRange (minimum maximum : Z) (g : gui) : outcome :=
  if fits_int minimum && fits_int maximum
  then Returned (emit (progress_bar_setRange minimum maximum) g)
  else Raised OverflowError g.

Definition progress_setValue (value : Z) (g : gui) : outcome :=
  if fits_int value
  then Returned (emit (progress_bar_setValue value) g)
  else Raised OverflowError g.

(** [sys.get_int_max_str_digits()], as the interpreter starts. *)
Definition int_max_str_digits : Z := 4300.

(** Sequencing of steps that may fail to produce a window: [None] stands
    for a raised exception, or for an exhausted dispatch budget. *)
Definition and_then (m : option gui) (k : gui -> option gui) : option gui :=
  match m with
  | Some g => k g
  | None => None
  end.

Notation "m >>= k" := (and_then m k) (at level 50, left associativity).

(** ** Sample environments, used to run the model on concrete inputs *)

(** A decimal-digit table that knows the ASCII digits only. *)
Definition ascii_todecimal (c : char) : option Z :=
  if ((48 <=? c) && (c <=? 57))%N then Some (Z.of_N c - 48) else None.

(** A file system holding the script and one export file, and nothing
    else. *)
Definition sample_exe : str := lit "/usr/bin/python3".
Definition sample_root : str := lit "/app".
Definition sample_script : str := lit "/app/download_memories.py".
Definition sample_html : str := lit "/data/memories_history.html".

Fixpoint str_eqb (a b : str) : bool :=
  match a, b with
  | [], [] => true
  | c :: a', d :: b' => (c =? d)%N && str_eqb a' b'
  | _, _ => false
  end.

Definition sample_exists (p : str) : bool :=
  str_eqb p sample_script || str_eqb p sample_html || str_eqb p (lit "/data").

Definition sample_is_dir (p : str) : bool := str_eqb p (lit "/data").

(** The queries to that file system, which always answer. *)
Definition sample_Path_exists (p : str) : option bool := Some (sample_exists p).
Definition sample_Path_is_dir (p : str) : option bool := Some (sample_is_dir p).

(** The same file system behind an operating system that refuses a path
    of more than 255 code points: the query raises. *)
Definition limited_Path_exists (p : str) : option bool :=
  if (255 <? List.length p)%nat then None else Some (sample_exists p).

Definition sample_joinpath (dir name : str) : str := dir ++ lit "/" ++ name.

(** The form as the constructor leaves it, with no call recorded. *)
Definition blank_form : gui :=
  mkGui 0 [] (lit "memories") [] (fun _ => false) false 1 None [].

Definition with_html (s : str) (g : gui) : gui :=
  mkGui (mode_combo_currentIndex g) s
        (output_path_edit_text g) (merge_folder_edit_text g) (isChecked g)
        (defer_video_overlays_isEnabled g) (threads_spin_value g)
        (process g) (calls g).

Definition with_output (s : str) (g : gui) : gui :=
  mkGui (mode_combo_currentIndex g) (html_path_edit_text g)
        s (merge_folder_edit_text g) (isChecked g)
        (defer_video_overlays_isEnabled g) (threads_spin_value g)
        (process g) (calls g).

Definition with_merge_folder (s : str) (g : gui) : gui :=
  mkGui (mode_combo_currentIndex g) (html_path_edit_text g)
        (output_path_edit_text g) s (isChecked g)
        (defer_video_overlays_isEnabled g) (threads_spin_value g)
        (process g) (calls g).

Definition with_mode (i : Z) (g : gui) : gui :=
  mkGui i (html_path_edit_text g)
        (output_path_edit_text g) (merge_folder_edit_text g) (isChecked g)
        (defer_video_overlays_isEnabled g) (threads_spin_value g)
        (process g) (calls g).

Definition with_threads (n : Z) (g : gui) : gui :=
  mkGui (mode_combo_currentIndex g) (html_path_edit_text g)
        (output_path_edit_text g) (merge_folder_edit_text g) (isChecked g)
        (defer_video_overlays_isEnabled g) n
        (process g) (calls g).

(** Merge mode with a folder typed between blanks. *)
Definition sample_merge_form : gui :=
  with_mode 1 (with_merge_folder (lit "  /data ") blank_form).

(** Download mode: the export file, resume and videos-only checked, four
    threads. *)
Definition sample_download_form : gui :=
  with_threads 4
    (with_html (lit " /data/memories_history.html")
       (write_checked resume_checkbox true
          (write_checked videos_only_checkbox true blank_form))).

(** Resume checked, but no HTML path typed. *)
Definition sample_resume_without_html : gui :=
  write_checked resume_checkbox true blank_form.

(** Download mode with an HTML path of 300 letters. *)
Definition long_name_form : gui := with_html (repeat 97%N 300) blank_form.

(** Merge-overlays and defer-video-overlays both checked. *)
Definition sample_overlay_form : gui :=
  write_checked defer_video_overlays_checkbox true
    (defer_video_overlays_setEnabled true
       (write_checked merge_overlays_checkbox true blank_form)).

(** ** The program *)

Section Bridge.

Set Default Proof Using "Type".

(** [Py_UNICODE_TODECIMAL]: the decimal value of a code point of Unicode
    category Nd, [None] for any other code point.  Both the pattern class
    [\d] and [int()] consult it. *)
Variable todecimal : char -> option Z.

(** [sys.executable], [str(self.script_path)] and [str(self.root_dir)]. *)
Variable sys_executable : str.
Variable script_path : str.
Variable root_dir : str.

(** [Path(p).exists()] and [Path(p).is_dir()] on the text of the path: the
    answer, or [None] when the query raises [OSError] (a name too long for
    the file system, a directory that may not be searched).
    [Path(dir) / name] only builds a path. *)
Variable Path_exists : str -> option bool.
Variable Path_is_dir : str -> option bool.
Variable Path_joinpath : str -> str -> str.

Definition isdecimal (c : char) : bool :=
  match todecimal c with
  | Some _ => true
  | None => false
  end.

(** [int(s)] on a string of decimal digits; [None] is [ValueError]: the
    string is not one (the source applies [int] to [\d+] groups only), or
    it has more digits than the interpreter converts. *)
Fixpoint int_from (acc : Z) (s : str) : option Z :=
  match s with
  | [] => Some acc
  | c :: r =>
      match todecimal c with
      | Some d => int_from (10 * acc + d) r
      | None => None
      end
  end.

Definition int (s : str) : option Z :=
  match s with
  | [] => None
  | _ :: _ =>
      if int_max_str_digits <? Z.of_nat (List.length s) then None
      else int_from 0 s
  end.

(** *** The progress pattern [\[(\d+)/(\d+)\]] *)

(** The longest run of decimal digits at the head of [s], and what
    follows it: the greedy [\d+]. *)
Fixpoint digits_prefix (s : str) : str * str :=
  match s with
  | [] => ([], [])
  | c :: r =>
      if isdecimal c then
        let (d, t) := digits_prefix r in (c :: d, t)
      else ([], s)
  end.

(** A match of the pattern that begins at the head of [s]: the two groups.
    A digit is neither '/' nor ']', so giving back digits of a greedy run
    never helps and the longest run decides. *)
Definition progress_re_match (s : str) : option (str * str) :=
  match s with
  | c :: r =>
      if (c =? 91)%N then
        match digits_prefix r with
        | ((_ :: _) as g1, c1 :: r1) =>
            if (c1 =? 47)%N then
              match digits_prefix r1 with
              | ((_ :: _) as g2, c2 :: _) =>
                  if (c2 =? 93)%N then Some (g1, g2) else None
              | _ => None
              end
            else None
        | _ => None
        end
      else None
  | [] => None
  end.

(** [self._progress_re.search(line)]: the leftmost match. *)
Fixpoint progress_re_search (line : str) : option (str * str) :=
  match progress_re_match line with
  | Some m => Some m
  | None =>
      match line with
      | [] => None
      | _ :: r => progress_re_search r
      end
  end.

(** *** Command builder *)

Definition isquote (c : char) : bool := ((c =? 34) || (c =? 39))%N.

Definition _display_arg (value : str) : str :=
  if negb (nonempty value) then dquote ++ dquote
  else if existsb isspace value || existsb isquote value
       then dquote ++ value ++ dquote
       else value.

Definition _build_args (g : gui) : list str :=
  let args := [] in
  if mode_combo_currentIndex g =? 1 then
    let merge_folder := strip (merge_folder_edit_text g) in
    let args :=
      if nonempty merge_folder
      then args ++ [lit "--merge-existing"; merge_folder] else args in
    args
  else
    let html_path := strip (html_path_edit_text g) in
    let args := if nonempty html_path then args ++ [html_path] else args in
    let output_dir := strip (output_path_edit_text g) in
    let args :=
      if nonempty output_dir then args ++ [lit "-o"; output_dir] else args in
    let args :=
      if isChecked g resume_checkbox
      then args ++ [lit "--resume"] else args in
    let args :=
      if isChecked g retry_failed_checkbox
      then args ++ [lit "--retry-failed"] else args in
    let args :=
      if isChecked g test_checkbox
      then args ++ [lit "--test"] else args in
    let args :=
      if isChecked g merge_overlays_checkbox
      then args ++ [lit "--merge-overlays"] else args in
    let args :=
      if isChecked g defer_video_overlays_checkbox
      then args ++ [lit "--defer-video-overlays"] else args in
    let args :=
      if isChecked g videos_only_checkbox
      then args ++ [lit "--videos-only"] else args in
    let args :=
      if isChecked g pictures_only_checkbox
      then args ++ [lit "--pictures-only"] else args in
    let args :=
      if isChecked g overlays_only_checkbox
      then args ++ [lit "--overlays-only"] else args in
    let args :=
      if isChecked g timestamp_filenames_checkbox
      then args ++ [lit "--timestamp-filenames"] else args in
    let args :=
      if isChecked g remove_duplicates_checkbox
      then args ++ [lit "--remove-duplicates"] else args in
    let args :=
      if isChecked g join_multi_snaps_checkbox
      then args ++ [lit "--join-multi-snaps"] else args in
    let args :=
      if threads_spin_value g >? 1
      then args ++ [lit "--threads"; str_of_int (threads_spin_value g)]
      else args in
    args.

(** The text [_update_command_preview] computes. *)
Definition command_preview_text (g : gui) : str :=
  let args := _build_args g in
  let command := [sys_executable; lit "-u"; script_path] ++ args in
  join (lit " ") (map _display_arg command).

Definition _update_command_preview (g : gui) : gui :=
  emit (command_preview_setPlainText (command_preview_text g)) g.

(** *** Form synchronisation *)

Definition _update_mode_ui (g : gui) : gui :=
  let download_mode := mode_combo_currentIndex g =? 0 in
  let g := emit (group_setVisible download_group download_mode) g in
  let g := emit (group_setVisible run_mode_group download_mode) g in
  let g := emit (group_setVisible filter_group download_mode) g in
  let g := emit (group_setVisible overlay_group download_mode) g in
  let g := emit (group_setVisible naming_group download_mode) g in
  let g := emit (group_setVisible extra_group download_mode) g in
  emit (group_setVisible merge_group (negb download_mode)) g.

(** The toggle handlers call [setChecked], and [setChecked] runs the
    handlers connected to [toggled]; the handlers are written against the
    [setChecked] they are given. *)
Section Slots.

Variable setChecked : checkbox -> bool -> gui -> option gui.

Definition _on_resume_toggled (checked : bool) (g : gui) : option gui :=
  if checked then
    setChecked retry_failed_checkbox false g
      >>= setChecked test_checkbox false
  else Some g.

Definition _on_retry_toggled (checked : bool) (g : gui) : option gui :=
  if checked then
    setChecked resume_checkbox false g
      >>= setChecked test_checkbox false
  else Some g.

Definition _on_test_toggled (checked : bool) (g : gui) : option gui :=
  if checked then
    setChecked resume_checkbox false g
      >>= setChecked retry_failed_checkbox false
  else Some g.

Definition _on_videos_only_toggled (checked : bool) (g : gui) : option gui :=
  if checked then setChecked pictures_only_checkbox false g else Some g.

Definition _on_pictures_only_toggled (checked : bool) (g : gui)
  : option gui :=
  if checked then setChecked videos_only_checkbox false g else Some g.

Definition _on_merge_overlays_toggled (checked : bool) (g : gui)
  : option gui :=
  let g := defer_video_overlays_setEnabled checked g in
  if negb checked then setChecked defer_video_overlays_checkbox false g
  else Some g.

(** The slots [_connect_signals] connects to [cb.toggled], in connection
    order: the preview first, then the exclusion handler if [cb] has one. *)
Definition toggled (cb : checkbox) (checked : bool) (g : gui) : option gui :=
  let g := _update_command_preview g in
  match cb with
  | resume_checkbox => _on_resume_toggled checked g
  | retry_failed_checkbox => _on_retry_toggled checked g
  | test_checkbox => _on_test_toggled checked g
  | videos_only_checkbox => _on_videos_only_toggled checked g
  | pictures_only_checkbox => _on_pictures_only_toggled checked g
  | merge_overlays_checkbox => _on_merge_overlays_toggled checked g
  | _ => Some g
  end.

End Slots.

(** [cb.setChecked(b)]: nothing happens when [cb] already has the state
    [b]; otherwise the state changes and [toggled(b)] is emitted.  [fuel]
    bounds the depth of nested signal dispatch. *)
Fixpoint setChecked (fuel : nat) (cb : checkbox) (b : bool) (g : gui)
  : option gui :=
  match fuel with
  | O => None
  | S fuel' =>
      if Bool.eqb (isChecked g cb) b then Some g
      else toggled (setChecked fuel') cb b (write_checked cb b g)
  end.

(** The user clicks the check box [cb]: a disabled box ignores the click,
    an enabled one flips. *)
Definition click (fuel : nat) (cb : checkbox) (g : gui) : option gui :=
  if isEnabled g cb then setChecked fuel cb (negb (isChecked g cb)) g
  else Some g.

(** A sequence of clicks, first to last. *)
Fixpoint clicks (fuel : nat) (cbs : list checkbox) (g : gui) : option gui :=
  match cbs with
  | [] => Some g
  | cb :: rest => click fuel cb g >>= clicks fuel rest
  end.

(** The widgets as [_build_ui] creates them. *)
Definition _build_ui : gui :=
  mkGui 0 [] (lit "memories") [] (fun _ => false) true 1 None
        [stop_button_setEnabled false;
         progress_bar_setRange 0 1;
         progress_bar_setValue 0].

(** [DownloaderGUI.__init__] *)
Definition DownloaderGUI_init (fuel : nat) : option gui :=
  let g := _build_ui in
  _on_merge_overlays_toggled (setChecked fuel)
    (isChecked g merge_overlays_checkbox) g
  >>= fun g => Some (_update_command_preview (_update_mode_ui g)).

(** *** Process supervisor *)

Definition _append_log (text : str) (g : gui) : gui :=
  emit (log_output_insertText text) g.

Definition _maybe_update_progress (line : str) (g : gui) : outcome :=
  match progress_re_search line with
  | None => Returned g
  | Some (group1, group2) =>
      match int group1 with
      | None => Raised ValueError g
      | Some current =>
          match int group2 with
          | None => Raised ValueError g
          | Some total =>
              and_next (progress_setRange 0 total g) (fun g =>
              and_next (progress_setValue current g) (fun g =>
              Returned (emit (status_label_setText
                                (lit "Processing " ++ str_of_int current
                                 ++ lit " of " ++ str_of_int total)) g)))
          end
      end
  end.

Definition QMessageBox_critical (title text : str) (g : gui) : gui :=
  emit (QMessageBox_show Critical title text) g.

Definition QMessageBox_warning (title text : str) (g : gui) : gui :=
  emit (QMessageBox_show Warning title text) g.

(** [self.process and self.process.state() != NotRunning] *)
Definition process_active (g : gui) : bool :=
  match process g with
  | Some NotRunning => false
  | Some _ => true
  | None => false
  end.

(** The part of [_start_process] after the path checks: the running check
    and the spawn.  A started [QProcess] is in the state [Starting]. *)
Definition _start_process_spawn (g : gui) : gui :=
  if process_active g then
    QMessageBox_warning (lit "Already running")
                        (lit "A process is already running.") g
  else
    let args := [lit "-u"; script_path] ++ _build_args g in
    let g := write_process (Some NotRunning) g in
    let g := emit (process_setWorkingDirectory root_dir) g in
    let g := emit process_setProcessChannelMode_MergedChannels g in
    let g := emit process_connect_readyReadStandardOutput g in
    let g := emit process_connect_finished g in
    let g := emit (progress_bar_setRange 0 0) g in
    let g := emit (status_label_setText (lit "Running...")) g in
    let g := emit (start_button_setEnabled false) g in
    let g := emit (stop_button_setEnabled true) g in
    let g := _append_log (lit "Starting process..." ++ nl) g in
    let g := emit (process_start sys_executable args) g in
    write_process (Some Starting) g.

Definition metadata_warning : str :=
  lit "Warning: metadata.json not found in output folder; resume/retry may fail."
  ++ nl.

(** Each query is put where the source puts it and not before: the one
    about [metadata.json] only with resume or retry-failed checked, by the
    short circuit of [and]. *)
Definition _start_process (g : gui) : outcome :=
  match Path_exists script_path with
  | None => Raised OSError g
  | Some false =>
      Returned (QMessageBox_critical (lit "Missing script")
                  (lit "Could not find " ++ script_path ++ lit ".") g)
  | Some true =>
      let download_mode := mode_combo_currentIndex g =? 0 in
      if download_mode then
        let html_path := strip (html_path_edit_text g) in
        if negb (nonempty html_path) then
          Returned (QMessageBox_warning (lit "Missing HTML")
                      (lit "Please select memories_history.html.") g)
        else
          match Path_exists html_path with
          | None => Raised OSError g
          | Some false =>
              Returned (QMessageBox_warning (lit "Missing file")
                          (lit "The selected HTML path does not exist.") g)
          | Some true =>
              let output_dir :=
                if nonempty (strip (output_path_edit_text g))
                then strip (output_path_edit_text g) else lit "memories" in
              let metadata_path :=
                Path_joinpath output_dir (lit "metadata.json") in
              if isChecked g resume_checkbox
                 || isChecked g retry_failed_checkbox
              then
                match Path_exists metadata_path with
                | None => Raised OSError g
                | Some false =>
                    Returned (_start_process_spawn
                                (_append_log metadata_warning g))
                | Some true => Returned (_start_process_spawn g)
                end
              else Returned (_start_process_spawn g)
          end
      else
        let merge_folder := strip (merge_folder_edit_text g) in
        if negb (nonempty merge_folder) then
          Returned (QMessageBox_warning (lit "Missing folder")
                      (lit "Please select a folder to merge.") g)
        else
          match Path_is_dir merge_folder with
          | None => Raised OSError g
          | Some false =>
              Returned (QMessageBox_warning (lit "Invalid folder")
                          (lit "The selected folder does not exist.") g)
          | Some true => Returned (_start_process_spawn g)
          end
  end.

(** [waitForFinished msecs] is the answer of the bounded wait: [true] when
    the child has exited before [msecs] milliseconds have passed. *)
Definition _stop_process (waitForFinished : Z -> bool) (g : gui) : gui :=
  match process g with
  | None => g
  | Some NotRunning => g
  | Some _ =>
      let g := emit process_terminate g in
      let g := emit (process_waitForFinished 2000) g in
      let g :=
        if negb (waitForFinished 2000) then emit process_kill g else g in
      _append_log (lit "Process stopped by user." ++ nl) g
  end.

(** [data] is the decoded text read from the child. *)
Definition _handle_process_output (data : str) (g : gui) : outcome :=
  match process g with
  | None => Returned g
  | Some _ =>
      if negb (nonempty data) then Returned g
      else
        fold_left (fun acc line => and_next acc (_maybe_update_progress line))
                  (splitlines data) (Returned (_append_log data g))
  end.

Definition _handle_process_finished (exit_code : Z) (g : gui) : gui :=
  let g := emit (start_button_setEnabled true) g in
  let g := emit (stop_button_setEnabled false) g in
  let g := emit (progress_bar_setRange 0 1) g in
  let g := emit (progress_bar_setValue 1) g in
  let g := emit (status_label_setText
                   (lit "Finished (exit code " ++ str_of_int exit_code
                    ++ lit ")")) g in
  _append_log (lit "Process finished with exit code "
               ++ str_of_int exit_code ++ lit "." ++ nl) g.

(** The ASCII digits are decimal digits with their usual values, and no
    other ASCII character is a decimal digit. *)
Hypothesis todecimal_ascii :
  forall c, (c < 128)%N -> todecimal c = ascii_todecimal c.

(** Every decimal digit has a value from 0 to 9. *)
Hypothesis todecimal_digit :
  forall c d, todecimal c = Some d -> 0 <= d <= 9.

(** ** The specification's reading of the download command *)

(** The boolean flags of download mode, in the order the command lists
    them. *)
Definition download_flags : list (checkbox * str) :=
  [(resume_checkbox, lit "--resume");
   (retry_failed_checkbox, lit "--retry-failed");
   (test_checkbox, lit "--test");
   (merge_overlays_checkbox, lit "--merge-overlays");
   (defer_video_overlays_checkbox, lit "--defer-video-overlays");
   (videos_only_checkbox, lit "--videos-only");
   (pictures_only_checkbox, lit "--pictures-only");
   (overlays_only_checkbox, lit "--overlays-only");
   (timestamp_filenames_checkbox, lit "--timestamp-filenames");
   (remove_duplicates_checkbox, lit "--remove-duplicates");
   (join_multi_snaps_checkbox, lit "--join-multi-snaps")].

(** The names of the flags whose box is checked, in that order. *)
Definition enabled_flags (g : gui) : list str :=
  map snd (filter (fun entry => isChecked g (fst entry)) download_flags).

(** ** The specification's reading of the exclusions *)

Definition run_mode_boxes : list checkbox :=
  [resume_checkbox; retry_failed_checkbox; test_checkbox].

Definition media_filter_boxes : list checkbox :=
  [videos_only_checkbox; pictures_only_checkbox].

(** How many of [boxes] are checked. *)
Definition count_checked (g : gui) (boxes : list checkbox) : nat :=
  List.length (filter (isChecked g) boxes).

(** Both pairwise exclusions: at most one box of each group is checked. *)
Definition exclusions_hold (g : gui) : Prop :=
  (count_checked g run_mode_boxes <= 1)%nat
  /\ (count_checked g media_filter_boxes <= 1)%nat.

(** The boxes that enabling [cb] must clear. *)
Definition conflicts (cb : checkbox) : list checkbox :=
  match cb with
  | resume_checkbox => [retry_failed_checkbox; test_checkbox]
  | retry_failed_checkbox => [resume_checkbox; test_checkbox]
  | test_checkbox => [resume_checkbox; retry_failed_checkbox]
  | videos_only_checkbox => [pictures_only_checkbox]
  | pictures_only_checkbox => [videos_only_checkbox]
  | _ => []
  end.

(** ** The specification's reading of the progress marker *)

(** A non-empty string of decimal digits. *)
Definition is_integer (s : str) : Prop :=
  s <> [] /\ Forall (fun c => isdecimal c = true) s.

(** [line] holds, right after [pre], a substring that matches
    [[<integer>/<integer>]] with the integers written [first] and
    [second]. *)
Definition marker_after (pre line first second : str) : Prop :=
  is_integer first /\ is_integer second
  /\ exists post,
       line = pre ++ lit "[" ++ first ++ lit "/" ++ second ++ lit "]" ++ post.

Definition contains_marker (line : str) : Prop :=
  exists pre first second, marker_after pre line first second.

(** The marker after [pre] is the leftmost one of [line]. *)
Definition leftmost_marker (pre line first second : str) : Prop :=
  marker_after pre line first second
  /\ forall pre' a b,
       marker_after pre' line a b -> (List.length pre <= List.length pre')%nat.

(** The integer written [s] is one that the handler can pass on: it has at
    most 4300 digits, and its value is at most 2147483647. *)
Definition within_limits (s : str) : Prop :=
  Z.of_nat (List.length s) <= 4300
  /\ forall v, int_from 0 s = Some v -> v <= 2147483647.

(** Every line of the chunk [data] that holds a marker has the integers of
    its leftmost marker within the limits. *)
Definition lines_within_limits (data : str) : Prop :=
  forall line pre first second,
    In line (splitlines data) -> leftmost_marker pre line first second ->
    within_limits first /\ within_limits second.

(** The calls by which the handler reports [current] of [total]. *)
Definition progress_report (current total : Z) : list call :=
  [progress_bar_setRange 0 total;
   progress_bar_setValue current;
   status_label_setText
     (lit "Processing " ++ str_of_int current ++ lit " of "
      ++ str_of_int total)].

(** ** The specification's reading of the start preconditions *)

(** A process exists and is not in the state [NotRunning]. *)
Definition already_running (g : gui) : Prop :=
  exists st, process g = Some st /\ st <> NotRunning.

(** Some precondition of a start fails: the script is missing; in download
    mode the HTML path is empty or does not exist; in merge mode the folder
    is empty or is not an existing directory; or a process is running. *)
Definition start_precondition_fails (g : gui) : Prop :=
  Path_exists script_path = Some false
  \/ (mode_combo_currentIndex g = 0
      /\ (strip (html_path_edit_text g) = []
          \/ Path_exists (strip (html_path_edit_text g)) = Some false))
  \/ (mode_combo_currentIndex g = 1
      /\ (strip (merge_folder_edit_text g) = []
          \/ Path_is_dir (strip (merge_folder_edit_text g)) = Some false))
  \/ already_running g.

(** The directory in which a start looks for [metadata.json]. *)
Definition chosen_output_dir (g : gui) : str :=
  if nonempty (strip (output_path_edit_text g))
  then strip (output_path_edit_text g) else lit "memories".

(** The query about [metadata.json] answers, if the start consults it: it
    does in download mode with resume or retry-failed checked. *)
Definition metadata_query_answers (g : gui) : Prop :=
  mode_combo_currentIndex g = 0 ->
  isChecked g resume_checkbox || isChecked g retry_failed_checkbox = true ->
  Path_exists (Path_joinpath (chosen_output_dir g) (lit "metadata.json"))
  <> None.

(** Every query that the start consults answers.  The script is asked
    about first.  If it is there, download mode asks about a typed HTML
    path and, if that is there too, about [metadata.json]; any other mode
    asks about a typed folder. *)
Definition start_queries_answer (g : gui) : Prop :=
  exists script_found,
    Path_exists script_path = Some script_found
    /\ (script_found = true ->
        if mode_combo_currentIndex g =? 0 then
          strip (html_path_edit_text g) <> [] ->
          exists html_found,
            Path_exists (strip (html_path_edit_text g)) = Some html_found
            /\ (html_found = true -> metadata_query_answers g)
        else
          strip (merge_folder_edit_text g) <> [] ->
          Path_is_dir (strip (merge_folder_edit_text g)) <> None).

(** ** The specification's reading of a successful start *)

(** The calls of a successful spawn. *)
Definition spawn_calls (g : gui) : list call :=
  [process_setWorkingDirectory root_dir;
   process_setProcessChannelMode_MergedChannels;
   process_connect_readyReadStandardOutput;
   process_connect_finished;
   progress_bar_setRange 0 0;
   status_label_setText (lit "Running...");
   start_button_setEnabled false;
   stop_button_setEnabled true;
   log_output_insertText (lit "Starting process..." ++ nl);
   process_start sys_executable ([lit "-u"; script_path] ++ _build_args g)].

(** ** The remaining handlers and the events of a session *)

Inductive line_edit := html_path_edit | output_path_edit | merge_folder_edit.

Definition text (g : gui) (le : line_edit) : str :=
  match le with
  | html_path_edit => html_path_edit_text g
  | output_path_edit => output_path_edit_text g
  | merge_folder_edit => merge_folder_edit_text g
  end.

Definition write_text (le : line_edit) (s : str) (g : gui) : gui :=
  match le with
  | html_path_edit => with_html s g
  | output_path_edit => with_output s g
  | merge_folder_edit => with_merge_folder s g
  end.

(** [le.setText(s)], and the user editing the field into [s]: the text
    changes and [textChanged] is emitted, unless the field already holds
    [s]; [_connect_signals] connects the preview to [textChanged]. *)
Definition setText (le : line_edit) (s : str) (g : gui) : gui :=
  if str_eqb (text g le) s then g
  else _update_command_preview (write_text le s g).

(** The three browse handlers; the argument is what the dialog returned,
    the empty string when it was cancelled. *)
Definition _choose_html_file (file_path : str) (g : gui) : gui :=
  if nonempty file_path then setText html_path_edit file_path g else g.

Definition _choose_output_folder (folder : str) (g : gui) : gui :=
  if nonempty folder then setText output_path_edit folder g else g.

Definition _choose_merge_folder (folder : str) (g : gui) : gui :=
  if nonempty folder then setText merge_folder_edit folder g else g.

(** The two entries [_build_ui] adds to the mode combo box, and their
    indices. *)
Inductive mode_entry := download_entry | merge_entry.

Definition index_of (entry : mode_entry) : Z :=
  match entry with
  | download_entry => 0
  | merge_entry => 1
  end.

(** The user selects an entry of the combo box: when the index changes,
    [currentIndexChanged] runs [_update_mode_ui] and then the preview. *)
Definition mode_combo_select (entry : mode_entry) (g : gui) : gui :=
  if index_of entry =? mode_combo_currentIndex g then g
  else _update_command_preview (_update_mode_ui (with_mode (index_of entry) g)).

(** The user sets the spin box, whose range [_build_ui] fixes to 1..16: the
    value is brought into the range, and [valueChanged] runs the preview
    when it changes. *)
Definition threads_spin_setValue (n : Z) (g : gui) : gui :=
  let value := Z.max 1 (Z.min 16 n) in
  if value =? threads_spin_value g then g
  else _update_command_preview (with_threads value g).

(** The child changes state behind the program's back. *)
Definition child_state_changed (st : ProcessState) (g : gui) : gui :=
  match process g with
  | Some _ => write_process (Some st) g
  | None => g
  end.

(** What can happen to the window: the user's actions on the form and the
    buttons, and the signals of the child.  A handler that raises ends the
    session ([None]). *)
Inductive event :=
| Click (cb : checkbox)
| TextEdited (le : line_edit) (s : str)
| HtmlChosen (file_path : str)
| OutputFolderChosen (folder : str)
| MergeFolderChosen (folder : str)
| ModeSelected (entry : mode_entry)
| ThreadsSet (n : Z)
| StartClicked
| StopClicked (waitForFinished : Z -> bool)
| OutputReady (data : str)
| ProcessFinished (exit_code : Z)
| ChildStateChanged (st : ProcessState).

Definition handle (fuel : nat) (e : event) (g : gui) : option gui :=
  match e with
  | Click cb => click fuel cb g
  | TextEdited le s => Some (setText le s g)
  | HtmlChosen file_path => Some (_choose_html_file file_path g)
  | OutputFolderChosen folder => Some (_choose_output_folder folder g)
  | MergeFolderChosen folder => Some (_choose_merge_folder folder g)
  | ModeSelected entry => Some (mode_combo_select entry g)
  | ThreadsSet n => Some (threads_spin_setValue n g)
  | StartClicked => returned (_start_process g)
  | StopClicked waitForFinished => Some (_stop_process waitForFinished g)
  | OutputReady data => returned (_handle_process_output data g)
  | ProcessFinished exit_code => Some (_handle_process_finished exit_code g)
  | ChildStateChanged st => Some (child_state_changed st g)
  end.

Fixpoint handle_all (fuel : nat) (events : list event) (g : gui)
  : option gui :=
  match events with
  | [] => Some g
  | e :: rest => handle fuel e g >>= handle_all fuel rest
  end.

(** The windows a session can show: the constructor, then any events
    whose handlers return. *)
Definition reachable (g : gui) : Prop :=
  exists n events,
    DownloaderGUI_init (S (S n)) >>= handle_all (S (S n)) events = Some g.


(** A session that edits the form in both modes, runs a child to its end
    and comes back to a form that is ready to start. *)
Definition sample_events : list event :=
  [Click merge_overlays_checkbox;
   Click defer_video_overlays_checkbox;
   HtmlChosen (lit " /data/memories_history.html");
   ThreadsSet 40;
   ModeSelected merge_entry;
   MergeFolderChosen (lit "/data");
   ModeSelected download_entry;
   Click retry_failed_checkbox;
   Click resume_checkbox;
   StartClicked;
   ChildStateChanged Running;
   OutputReady (lit "[1/2] first" ++ nl);
   StopClicked (fun _ => false);
   ChildStateChanged NotRunning;
   ProcessFinished 0].

(** ** What the window shows *)

(** The text last given to the command preview. *)
Fixpoint last_preview_from (shown : option str) (cs : list call)
  : option str :=
  match cs with
  | [] => shown
  | command_preview_setPlainText t :: rest => last_preview_from (Some t) rest
  | _ :: rest => last_preview_from shown rest
  end.

Definition preview_shown (g : gui) : option str :=
  last_preview_from None (calls g).

Definition groupbox_eq_dec (a b : groupbox) : {a = b} + {a <> b}.
Proof. decide equality. Defined.

(** The visibility last given to the group box [grp]. *)
Fixpoint last_visible_from (grp : groupbox) (shown : option bool)
  (cs : list call) : option bool :=
  match cs with
  | [] => shown
  | group_setVisible grp' v :: rest =>
      last_visible_from grp
        (if groupbox_eq_dec grp' grp then Some v else shown) rest
  | _ :: rest => last_visible_from grp shown rest
  end.

Definition group_visible (g : gui) (grp : groupbox) : option bool :=
  last_visible_from grp None (calls g).

(** The group boxes of the given mode: the merge group in merge mode, the
    six others in download mode. *)
Definition belongs_to_mode (index : Z) (grp : groupbox) : bool :=
  match grp with
  | merge_group => negb (index =? 0)
  | _ => index =? 0
  end.

Definition is_preview_call (c : call) : bool :=
  match c with
  | command_preview_setPlainText _ => true
  | _ => false
  end.

(** Calls that change neither the preview nor the visible groups. *)
Definition is_quiet_call (c : call) : bool :=
  match c with
  | command_preview_setPlainText _ | group_setVisible _ _ => false
  | _ => true
  end.

(** Calls on the progress bar and the status label. *)
Definition is_progress_call (c : call) : bool :=
  match c with
  | progress_bar_setRange _ _ | progress_bar_setValue _
  | status_label_setText _ => true
  | _ => false
  end.

(** A string with no white space at either end, and not empty. *)
Definition trimmed (s : str) : Prop :=
  exists first, hd_error s = Some first /\ isspace first = false
  /\ isspace (last s first) = false.

(** The windows [g] and [g'] hold the same form: they differ at most in
    the process handle and in the calls made. *)
Definition same_form (g g' : gui) : Prop :=
  mode_combo_currentIndex g' = mode_combo_currentIndex g
  /\ html_path_edit_text g' = html_path_edit_text g
  /\ output_path_edit_text g' = output_path_edit_text g
  /\ merge_folder_edit_text g' = merge_folder_edit_text g
  /\ (forall cb, isChecked g' cb = isChecked g cb)
  /\ defer_video_overlays_isEnabled g' = defer_video_overlays_isEnabled g
  /\ threads_spin_value g' = threads_spin_value g.

(** A step from [g] to [g'] that leaves the form alone and makes only
    quiet calls. *)
Definition quiet_step (g g' : gui) : Prop :=
  same_form g g'
  /\ exists new,
       calls g' = calls g ++ new /\ forallb is_quiet_call new = true.

(** Defer-video-overlays can be used exactly when merge-overlays is
    checked, and is checked only then. *)
Definition defer_gated (g : gui) : Prop :=
  defer_video_overlays_isEnabled g = isChecked g merge_overlays_checkbox
  /\ (isChecked g defer_video_overlays_checkbox = true ->
      isChecked g merge_overlays_checkbox = true).

(** The window is consistent with its form. *)
Definition window_ok (g : gui) : Prop :=
  exclusions_hold g
  /\ defer_gated g
  /\ (mode_combo_currentIndex g = 0 \/ mode_combo_currentIndex g = 1)
  /\ 1 <= threads_spin_value g <= 16
  /\ preview_shown g = Some (command_preview_text g)
  /\ (forall grp,
        group_visible g grp
        = Some (belongs_to_mode (mode_combo_currentIndex g) grp)).

(** ** The checks of a start *)

(** Every check of a start passes: the script exists, no process is
    running, the path of the current mode is typed and found, and the
    query about [metadata.json] answers. *)
Definition start_ready (g : gui) : Prop :=
  Path_exists script_path = Some true
  /\ ~ already_running g
  /\ ((mode_combo_currentIndex g = 0
       /\ strip (html_path_edit_text g) <> []
       /\ Path_exists (strip (html_path_edit_text g)) = Some true)
      \/ (mode_combo_currentIndex g = 1
          /\ strip (merge_folder_edit_text g) <> []
          /\ Path_is_dir (strip (merge_folder_edit_text g)) = Some true))
  /\ metadata_query_answers g.

(** The warning a start logs once the paths are accepted: in download
    mode, with resume or retry-failed checked and no [metadata.json]. *)
Definition start_warning (g : gui) : list call :=
  if (mode_combo_currentIndex g =? 0)
     && (isChecked g resume_checkbox || isChecked g retry_failed_checkbox)
  then
    match Path_exists
            (Path_joinpath (chosen_output_dir g) (lit "metadata.json")) with
    | Some false => [log_output_insertText metadata_warning]
    | _ => []
    end
  else [].

(** * Verification *)

(** ** Facts about the command builder *)

Lemma nonempty_true (s : str) : nonempty s = true <-> s <> [].
Proof. destruct s; simpl; split; congruence. Qed.

(** C1. In merge mode the argument list is the flag [--merge-existing]
    followed by the stripped folder text and nothing else when that text is
    not empty, and the empty list when it is; no other field of the form
    has any influence. *)
Theorem merge_mode_args (g : gui) :
  mode_combo_currentIndex g = 1 ->
  let folder := strip (merge_folder_edit_text g) in
  (folder <> [] -> _build_args g = [lit "--merge-existing"; folder])
  /\ (folder = [] -> _build_args g = [])
  /\ (forall g', mode_combo_currentIndex g' = 1 ->
                 merge_folder_edit_text g' = merge_folder_edit_text g ->
                 _build_args g' = _build_args g).
Proof.
  intros Hmode folder.
  assert (Hargs : forall h, mode_combo_currentIndex h = 1 ->
            _build_args h =
            if nonempty (strip (merge_folder_edit_text h))
            then [lit "--merge-existing"; strip (merge_folder_edit_text h)]
            else []).
  { intros h Hh. cbv delta [_build_args] beta. rewrite Hh.
    change (1 =? 1) with true. cbv iota. reflexivity. }
  repeat split.
  - intro Hne. rewrite Hargs by assumption. fold folder.
    apply nonempty_true in Hne. now rewrite Hne.
  - intro He. rewrite Hargs by assumption. fold folder. now rewrite He.
  - intros g' Hmode' Hsame. rewrite !Hargs by assumption. now rewrite Hsame.
Qed.

Lemma extend_if (c : bool) (args items : list str) :
  (if c then args ++ items else args) = args ++ (if c then items else []).
Proof. destruct c; [reflexivity | now rewrite app_nil_r]. Qed.

Lemma enabled_cons (g : gui) (entry : checkbox * str) rest :
  map snd (filter (fun e => isChecked g (fst e)) (entry :: rest)) =
  (if isChecked g (fst entry) then [snd entry] else [])
  ++ map snd (filter (fun e => isChecked g (fst e)) rest).
Proof. simpl. now destruct (isChecked g (fst entry)). Qed.

(** Executes the outermost [args = ...] statement of a builder body. *)
Ltac next_statement :=
  match goal with
  | |- (let x := ?v in @?body x) = ?rhs =>
      change (body v = rhs); cbv beta; rewrite ?extend_if
  end.

(** C2. In download mode the argument list is, in this order: the stripped
    HTML path if not empty; [-o] and the stripped output directory if not
    empty; the flags of the checked boxes in the fixed order; and
    [--threads N] exactly when the thread count [N] exceeds one, so that a
    count of one adds nothing. *)
Theorem download_mode_args (g : gui) :
  mode_combo_currentIndex g = 0 ->
  let html_path := strip (html_path_edit_text g) in
  let output_dir := strip (output_path_edit_text g) in
  let N := threads_spin_value g in
  _build_args g =
    (if nonempty html_path then [html_path] else [])
    ++ (if nonempty output_dir then [lit "-o"; output_dir] else [])
    ++ enabled_flags g
    ++ (if N >? 1 then [lit "--threads"; str_of_int N] else []).
Proof.
  intros Hmode html_path output_dir N.
  unfold enabled_flags, download_flags. rewrite !enabled_cons.
  cbn [filter map fst snd].
  cbv delta [_build_args] beta. rewrite Hmode.
  change (0 =? 1) with false. cbv iota.
  repeat next_statement.
  rewrite <- !app_assoc. reflexivity.
Qed.

(** ** Facts about the command preview *)

Lemma display_arg_quoted (v : str) :
  v <> [] ->
  (exists c, In c v /\ (isspace c = true \/ c = 34%N \/ c = 39%N)) ->
  _display_arg v = dquote ++ v ++ dquote.
Proof.
  intros Hne [c [Hin Hc]]. unfold _display_arg.
  apply nonempty_true in Hne. rewrite Hne. cbn [negb].
  assert (H : existsb isspace v || existsb isquote v = true).
  { apply orb_true_iff. destruct Hc as [Hs | Hq].
    - left. apply existsb_exists. now exists c.
    - right. apply existsb_exists. exists c. split; [assumption|].
      unfold isquote. apply orb_true_iff.
      destruct Hq as [-> | ->]; [left | right]; reflexivity. }
  now rewrite H.
Qed.

Lemma display_arg_plain (v : str) :
  v <> [] ->
  (forall c, In c v -> isspace c = false /\ c <> 34%N /\ c <> 39%N) ->
  _display_arg v = v.
Proof.
  intros Hne Hall. unfold _display_arg.
  apply nonempty_true in Hne. rewrite Hne. cbn [negb].
  assert (Hs : existsb isspace v = false).
  { apply not_true_is_false. intro H. apply existsb_exists in H.
    destruct H as [c [Hin Hc]]. destruct (Hall c Hin) as [Hf _]. congruence. }
  assert (Hq : existsb isquote v = false).
  { apply not_true_is_false. intro H. apply existsb_exists in H.
    destruct H as [c [Hin Hc]]. destruct (Hall c Hin) as [_ [H1 H2]].
    unfold isquote in Hc. apply orb_true_iff in Hc.
    destruct Hc as [Hc | Hc]; apply N.eqb_eq in Hc; congruence. }
  now rewrite Hs, Hq.
Qed.

(** C9. The display transform renders the empty string as two double
    quotes, wraps a string that holds a white-space character or a single
    or double quote in double quotes with its contents unchanged, and
    leaves any other string as it is; the preview is the renderings of the
    interpreter, [-u], the script path and the built arguments joined by
    single spaces.  Since nothing is escaped the rendering is ambiguous:
    two forms that build different argument lists can show the same
    preview. *)
Theorem display_arg_and_preview :
  _display_arg [] = dquote ++ dquote
  /\ (forall v, v <> [] ->
        (exists c, In c v /\ (isspace c = true \/ c = 34%N \/ c = 39%N)) ->
        _display_arg v = dquote ++ v ++ dquote)
  /\ (forall v, v <> [] ->
        (forall c, In c v -> isspace c = false /\ c <> 34%N /\ c <> 39%N) ->
        _display_arg v = v)
  /\ (forall g,
        calls (_update_command_preview g) =
        calls g ++
        [command_preview_setPlainText
           (join (lit " ")
              (map _display_arg
                 (sys_executable :: lit "-u" :: script_path
                  :: _build_args g)))])
  /\ (let g1 := with_html (lit "a b" ++ dquote ++ lit " -o " ++ dquote
                           ++ lit "c d") (with_output [] blank_form) in
      let g2 := with_html (lit "a b") (with_output (lit "c d") blank_form) in
      _build_args g1 <> _build_args g2
      /\ command_preview_text g1 = command_preview_text g2).
Proof.
  split; [reflexivity|].
  split; [exact display_arg_quoted|].
  split; [exact display_arg_plain|].
  split; [reflexivity|].
  split.
  - vm_compute. discriminate.
  - vm_compute. reflexivity.
Qed.

(** ** Facts about the toggle handlers *)

Arguments command_preview_text : simpl never.

(** Rewrites with the check-box states already known. *)
Ltac use_known_states :=
  repeat match goal with
         | H : ?chk ?box = true |- context [?chk ?box] => rewrite H
         | H : ?chk ?box = false |- context [?chk ?box] => rewrite H
         end.

(** Runs a click symbolically: computes, and splits on the state of each
    check box that [setChecked] compares. *)
Ltac run_handlers :=
  repeat (cbn; use_known_states;
          try match goal with
              | |- context [Bool.eqb (?chk ?box) _] =>
                  destruct (chk box) eqn:?
              end).

Lemma click_disabled (fuel : nat) (cb : checkbox) (h : gui) :
  isEnabled h cb = false -> click fuel cb h = Some h.
Proof. intro H. unfold click. now rewrite H. Qed.

Lemma click_enables (n : nat) (cb : checkbox) (h : gui) :
  isEnabled h cb = true ->
  isChecked h cb = false ->
  exists h',
    click (S (S n)) cb h = Some h'
    /\ isChecked h' cb = true
    /\ (forall o, In o (conflicts cb) -> isChecked h' o = false)
    /\ (forall o, o <> cb -> ~ In o (conflicts cb) ->
                  isChecked h' o = isChecked h o).
Proof.
  clear Path_exists Path_is_dir Path_joinpath.
  intros Hen Hoff. unfold click. rewrite Hen, Hoff.
  destruct h as [m ht ot mt chk en thr pr cs]. cbn in Hen, Hoff.
  destruct cb; run_handlers.
  all: eexists; split; [reflexivity|]; cbn.
  all: repeat split.
  all: try (intros o Ho; cbn in Ho; intuition (subst; cbn; congruence)).
  all: intros o Hne Hnin; cbn in Hnin; destruct o; cbn; intuition congruence.
Qed.

Lemma click_disables (n : nat) (cb : checkbox) (h : gui) :
  isEnabled h cb = true ->
  isChecked h cb = true ->
  exists h',
    click (S (S n)) cb h = Some h'
    /\ isChecked h' cb = false
    /\ (forall o, o <> cb ->
          isChecked h' o =
          match cb, o with
          | merge_overlays_checkbox, defer_video_overlays_checkbox => false
          | _, _ => isChecked h o
          end).
Proof.
  clear Path_exists Path_is_dir Path_joinpath.
  intros Hen Hon. unfold click. rewrite Hen, Hon.
  destruct h as [m ht ot mt chk en thr pr cs]. cbn in Hen, Hon.
  destruct cb; run_handlers.
  all: eexists; split; [reflexivity|]; cbn.
  all: split; [reflexivity|].
  all: intros o Hne; destruct o; cbn; congruence.
Qed.

Lemma click_preserves_exclusions (n : nat) (cb : checkbox) (h : gui) :
  exclusions_hold h ->
  exists h', click (S (S n)) cb h = Some h' /\ exclusions_hold h'.
Proof.
  unfold exclusions_hold, count_checked, run_mode_boxes, media_filter_boxes.
  unfold click. destruct h as [m ht ot mt chk en thr pr cs]. cbn.
  intros [Hrun Hmedia].
  destruct (chk resume_checkbox) eqn:?, (chk retry_failed_checkbox) eqn:?,
    (chk test_checkbox) eqn:?; cbn in Hrun; try lia.
  all: destruct (chk videos_only_checkbox) eqn:?,
         (chk pictures_only_checkbox) eqn:?; cbn in Hmedia; try lia.
  all: destruct cb; try destruct en; run_handlers.
  all: eexists; (split; [reflexivity|]); cbn; use_known_states; cbn; lia.
Qed.

Lemma clicks_preserve_exclusions (n : nat) (cbs : list checkbox) :
  forall g, exclusions_hold g ->
  exists g', clicks (S (S n)) cbs g = Some g' /\ exclusions_hold g'.
Proof.
  induction cbs as [|cb rest IH]; intros g Hg.
  - exists g. split; [reflexivity | assumption].
  - destruct (click_preserves_exclusions n cb g Hg) as [g1 [Hclick Hg1]].
    destruct (IH g1 Hg1) as [g' [Hrest Hg']].
    exists g'. split; [|assumption].
    cbn [clicks]. rewrite Hclick. exact Hrest.
Qed.

(** C3. Starting from a form in which both exclusions hold, every sequence
    of clicks on the check boxes is handled to completion and leaves a form
    in which both exclusions hold: at most one of resume, retry-failed and
    test is checked, and at most one of videos-only and pictures-only.  In
    particular, in any form, checking one of these boxes leaves it checked
    and the boxes it conflicts with unchecked. *)
Theorem toggles_keep_exclusions (n : nat) (cbs : list checkbox) (g : gui) :
  exclusions_hold g ->
  (exists g',
      clicks (S (S n)) cbs g = Some g' /\ exclusions_hold g')
  /\ (forall cb h,
        isEnabled h cb = true ->
        isChecked h cb = false ->
        exists h',
          click (S (S n)) cb h = Some h'
          /\ isChecked h' cb = true
          /\ forall o, In o (conflicts cb) -> isChecked h' o = false).
Proof.
  intro Hg. split.
  - now apply clicks_preserve_exclusions.
  - intros cb h Hen Hoff.
    destruct (click_enables n cb h Hen Hoff) as [h' [Hclick [Hon [Hclear _]]]].
    exists h'. auto.
Qed.

(** C4. Unchecking merge-overlays unchecks defer-video-overlays and
    disables it, so that clicking it has no effect; checking merge-overlays
    again enables defer-video-overlays and leaves it unchecked. *)
Theorem merge_overlays_gates_defer (n : nat) (g : gui) :
  isChecked g merge_overlays_checkbox = true ->
  exists g1,
    click (S (S n)) merge_overlays_checkbox g = Some g1
    /\ isChecked g1 merge_overlays_checkbox = false
    /\ isChecked g1 defer_video_overlays_checkbox = false
    /\ defer_video_overlays_isEnabled g1 = false
    /\ click (S (S n)) defer_video_overlays_checkbox g1 = Some g1
    /\ exists g2,
         click (S (S n)) merge_overlays_checkbox g1 = Some g2
         /\ isChecked g2 merge_overlays_checkbox = true
         /\ defer_video_overlays_isEnabled g2 = true
         /\ isChecked g2 defer_video_overlays_checkbox = false.
Proof.
  intro Hon. unfold click.
  destruct g as [m ht ot mt chk en thr pr cs]. cbn in Hon.
  cbn [isEnabled]. cbv iota. cbn [isChecked]. rewrite Hon.
  destruct (chk defer_video_overlays_checkbox) eqn:Hdefer; run_handlers.
  all: eexists; split; [reflexivity|]; cbn; use_known_states.
  all: repeat (split; [reflexivity|]).
  all: eexists; split; [reflexivity|]; cbn; use_known_states; auto.
Qed.

(** ** Facts about the progress scanner *)

Lemma slash_not_decimal : isdecimal 47%N = false.
Proof using Type todecimal_ascii. unfold isdecimal. now rewrite todecimal_ascii. Qed.

Lemma bracket_not_decimal : isdecimal 93%N = false.
Proof using Type todecimal_ascii. unfold isdecimal. now rewrite todecimal_ascii. Qed.

Lemma digits_prefix_app (d t : str) :
  Forall (fun c => isdecimal c = true) d ->
  match t with [] => True | c :: _ => isdecimal c = false end ->
  digits_prefix (d ++ t) = (d, t).
Proof.
  intros Hd Ht. induction Hd as [|c d Hc Hd IH]; simpl.
  - destruct t as [|c t]; [reflexivity|]. simpl. now rewrite Ht.
  - now rewrite Hc, IH.
Qed.

Lemma digits_prefix_inv (s d t : str) :
  digits_prefix s = (d, t) ->
  s = d ++ t /\ Forall (fun c => isdecimal c = true) d.
Proof.
  revert d t. induction s as [|c s IH]; simpl; intros d t H.
  - inversion H. split; [reflexivity | constructor].
  - destruct (isdecimal c) eqn:Hc.
    + destruct (digits_prefix s) as [d' t'] eqn:Hs.
      inversion H; subst. destruct (IH d' t eq_refl) as [-> Hd'].
      split; [reflexivity | now constructor].
    + inversion H. split; [reflexivity | constructor].
Qed.

(** The anchored matcher finds exactly the markers that begin the
    string. *)
Lemma progress_re_match_complete (s first second : str) :
  marker_after [] s first second ->
  progress_re_match s = Some (first, second).
Proof using Type todecimal_ascii.
  intros [[Hne1 Hd1] [[Hne2 Hd2] [post ->]]].
  change (lit "[") with [91%N]. change (lit "/") with [47%N].
  change (lit "]") with [93%N]. cbn [app].
  unfold progress_re_match.
  change (91 =? 91)%N with true. cbv iota.
  erewrite digits_prefix_app; [|exact Hd1|exact slash_not_decimal].
  destruct first as [|c1 first]; [congruence|].
  change (47 =? 47)%N with true. cbv iota.
  erewrite digits_prefix_app; [|exact Hd2|exact bracket_not_decimal].
  destruct second as [|c2 second]; [congruence|].
  reflexivity.
Qed.

Lemma progress_re_match_sound (s first second : str) :
  progress_re_match s = Some (first, second) ->
  marker_after [] s first second.
Proof.
  unfold progress_re_match. intro H.
  destruct s as [|c r]; [discriminate|].
  destruct (c =? 91)%N eqn:Hc; [|discriminate]. apply N.eqb_eq in Hc. subst c.
  destruct (digits_prefix r) as [g1 t1] eqn:H1.
  destruct g1 as [|a g1']; [discriminate|].
  destruct t1 as [|c1 r1]; [discriminate|].
  destruct (c1 =? 47)%N eqn:Hc1; [|discriminate].
  apply N.eqb_eq in Hc1. subst c1.
  destruct (digits_prefix r1) as [g2 t2] eqn:H2.
  destruct g2 as [|b g2']; [discriminate|].
  destruct t2 as [|c2 r2]; [discriminate|].
  destruct (c2 =? 93)%N eqn:Hc2; [|discriminate].
  apply N.eqb_eq in Hc2. subst c2.
  inversion H; subst.
  apply digits_prefix_inv in H1. destruct H1 as [-> Hd1].
  apply digits_prefix_inv in H2. destruct H2 as [-> Hd2].
  repeat split; try discriminate; try assumption.
  exists r2. reflexivity.
Qed.

Lemma marker_after_nil_line (pre first second : str) :
  ~ marker_after pre [] first second.
Proof.
  intros [_ [_ [post H]]]. symmetry in H.
  apply app_eq_nil in H. destruct H as [_ H]. discriminate.
Qed.

Lemma marker_after_cons (c c' : char) (pre r first second : str) :
  marker_after (c :: pre) (c' :: r) first second <->
  c = c' /\ marker_after pre r first second.
Proof.
  unfold marker_after. split.
  - intros [H1 [H2 [post H]]]. cbn [app] in H. injection H as Hc Hr.
    split; [congruence|]. split; [exact H1|]. split; [exact H2|].
    now exists post.
  - intros [-> [H1 [H2 [post ->]]]].
    split; [exact H1|]. split; [exact H2|]. now exists post.
Qed.

(** [search] returns the groups of the leftmost marker. *)
Lemma progress_re_search_sound (line first second : str) :
  progress_re_search line = Some (first, second) ->
  exists pre, leftmost_marker pre line first second.
Proof using Type todecimal_ascii.
  induction line as [|c r IH]; cbn [progress_re_search].
  - cbn. discriminate.
  - destruct (progress_re_match (c :: r)) as [m|] eqn:Hm.
    + intro H. inversion H; subst. exists []. split.
      * now apply progress_re_match_sound.
      * intros. cbn. lia.
    + intro H. destruct (IH H) as [pre [Hmark Hleft]].
      exists (c :: pre). split.
      * now apply marker_after_cons.
      * intros pre' a b Hother. destruct pre' as [|c' pre'].
        -- apply progress_re_match_complete in Hother. congruence.
        -- apply marker_after_cons in Hother. destruct Hother as [_ Hother].
           apply Hleft in Hother. cbn. lia.
Qed.

Lemma progress_re_search_none (line : str) :
  progress_re_search line = None -> ~ contains_marker line.
Proof using Type todecimal_ascii.
  induction line as [|c r IH]; cbn [progress_re_search].
  - intros _ [pre [a [b H]]]. now apply marker_after_nil_line in H.
  - destruct (progress_re_match (c :: r)) as [m|] eqn:Hm; [discriminate|].
    intros H [pre [a [b Hmark]]]. destruct pre as [|c' pre].
    + apply progress_re_match_complete in Hmark. congruence.
    + apply marker_after_cons in Hmark. destruct Hmark as [_ Hmark].
      apply (IH H). now exists pre, a, b.
Qed.

Lemma progress_re_search_found (line : str) :
  contains_marker line ->
  exists pre first second,
    leftmost_marker pre line first second
    /\ progress_re_search line = Some (first, second).
Proof using Type todecimal_ascii.
  intro Hc. destruct (progress_re_search line) as [[first second]|] eqn:Hs.
  - destruct (progress_re_search_sound _ _ _ Hs) as [pre Hpre].
    now exists pre, first, second.
  - now apply progress_re_search_none in Hs.
Qed.

Lemma progress_re_search_absent (line : str) :
  ~ contains_marker line -> progress_re_search line = None.
Proof using Type todecimal_ascii.
  intro Hc. destruct (progress_re_search line) as [[first second]|] eqn:Hs;
    [|reflexivity].
  destruct (progress_re_search_sound _ _ _ Hs) as [pre [Hmark _]].
  exfalso. apply Hc. now exists pre, first, second.
Qed.

(** [search] finds the leftmost marker, whichever it is. *)
Lemma leftmost_marker_search (line : str) :
  forall pre first second,
    leftmost_marker pre line first second ->
    progress_re_search line = Some (first, second).
Proof using Type todecimal_ascii.
  induction line as [|c r IH]; intros pre first second [Hm Hleft].
  - now apply marker_after_nil_line in Hm.
  - cbn [progress_re_search]. destruct pre as [|c' pre].
    + now rewrite (progress_re_match_complete _ _ _ Hm).
    + destruct (progress_re_match (c :: r)) as [[a b]|] eqn:Hmatch.
      * apply progress_re_match_sound in Hmatch.
        apply Hleft in Hmatch. cbn in Hmatch. lia.
      * apply marker_after_cons in Hm. destruct Hm as [_ Hm].
        apply (IH pre). split; [exact Hm|].
        intros pre' a b Hother.
        assert (H : marker_after (c :: pre') (c :: r) a b)
          by (apply marker_after_cons; now split).
        apply Hleft in H. cbn in H. lia.
Qed.

(** ** Facts about [int] and [str] *)

Lemma int_from_decimal (s : str) :
  Forall (fun c => isdecimal c = true) s ->
  forall acc, exists v, int_from acc s = Some v.
Proof.
  induction 1 as [|c s Hc Hs IH]; intro acc; cbn [int_from].
  - now exists acc.
  - unfold isdecimal in Hc. destruct (todecimal c) as [d|]; [|discriminate].
    apply IH.
Qed.

(** [int] converts a string of at most 4300 digits, and no longer one. *)
Lemma int_short (s : str) (v : Z) :
  s <> [] -> Z.of_nat (List.length s) <= 4300 -> int_from 0 s = Some v ->
  int s = Some v.
Proof.
  intros Hne Hlen H. unfold int. destruct s as [|c s]; [congruence|].
  replace (int_max_str_digits <? Z.of_nat (List.length (c :: s))) with false;
    [exact H|].
  symmetry. apply Z.ltb_ge. exact Hlen.
Qed.

Lemma int_inv (s : str) (v : Z) :
  int s = Some v ->
  s <> [] /\ Z.of_nat (List.length s) <= 4300 /\ int_from 0 s = Some v.
Proof.
  unfold int. destruct s as [|c s]; [discriminate|].
  destruct (int_max_str_digits <? Z.of_nat (List.length (c :: s))) eqn:Hlen;
    [discriminate|].
  apply Z.ltb_ge in Hlen. intro H.
  split; [discriminate|]. split; [exact Hlen | exact H].
Qed.

(** The value of [n] digits after [acc] lies between [acc] and [acc + 1]
    times the [n]-th power of ten. *)
Lemma int_from_bounds (s : str) :
  forall acc v,
    0 <= acc -> int_from acc s = Some v ->
    acc * 10 ^ Z.of_nat (List.length s) <= v
    < (acc + 1) * 10 ^ Z.of_nat (List.length s).
Proof using Type todecimal_digit.
  induction s as [|c s IH]; intros acc v Hacc H.
  - cbn in H |- *. injection H as <-. lia.
  - cbn [int_from] in H. destruct (todecimal c) as [d|] eqn:Hd; [|discriminate].
    apply todecimal_digit in Hd.
    apply IH in H; [|lia].
    cbn [List.length]. rewrite Nat2Z.inj_succ, Z.pow_succ_r by lia.
    assert (Hpow : 0 < 10 ^ Z.of_nat (List.length s))
      by (apply Z.pow_pos_nonneg; lia).
    nia.
Qed.

Lemma int_from_nonneg (s : str) (v : Z) : int_from 0 s = Some v -> 0 <= v.
Proof using Type todecimal_digit.
  intro H. apply int_from_bounds in H; lia.
Qed.

Lemma fits_int_true (v : Z) : 0 <= v <= 2147483647 -> fits_int v = true.
Proof.
  intro H. unfold fits_int. apply andb_true_iff. split; apply Z.leb_le; lia.
Qed.

Lemma fits_int_inv (v : Z) :
  fits_int v = true -> -2147483648 <= v <= 2147483647.
Proof.
  unfold fits_int. intro H. apply andb_true_iff in H.
  destruct H as [H1 H2]. apply Z.leb_le in H1, H2. lia.
Qed.

(** [int] reads back what [str] writes, for the integers a marker can
    carry. *)
Ltac ascii_digit :=
  rewrite (todecimal_ascii _) by reflexivity;
  match goal with
  | |- context [ascii_todecimal ?c] =>
      let v := eval vm_compute in (ascii_todecimal c) in
      change (ascii_todecimal c) with v
  end; cbv iota beta.

Lemma int_from_uint_acc (d : Decimal.uint) :
  forall acc,
    int_from (Zpos acc) (uint_digits d) = Some (Zpos (Pos.of_uint_acc d acc)).
Proof using Type todecimal_ascii.
  induction d; intro acc; cbn [uint_digits int_from Pos.of_uint_acc];
    try reflexivity;
    ascii_digit; rewrite <- IHd; f_equal; lia.
Qed.

Lemma int_from_uint (d : Decimal.uint) :
  int_from 0 (uint_digits d) = Some (Z.of_N (Pos.of_uint d)).
Proof using Type todecimal_ascii.
  induction d; cbn [uint_digits int_from Pos.of_uint]; try reflexivity;
    ascii_digit; try exact IHd; apply int_from_uint_acc.
Qed.

Lemma uint_digits_decimal (d : Decimal.uint) :
  Forall (fun c => isdecimal c = true) (uint_digits d).
Proof using Type todecimal_ascii.
  induction d; cbn [uint_digits]; constructor; try assumption;
    unfold isdecimal; now rewrite todecimal_ascii.
Qed.

Lemma to_uint_digits_nonempty (p : positive) :
  uint_digits (Pos.to_uint p) <> [].
Proof.
  pose proof (DecimalPos.Unsigned.of_to p) as H.
  destruct (Pos.to_uint p); cbn in H |- *; discriminate.
Qed.

Lemma int_from_str_of_int (n : Z) :
  0 <= n -> int_from 0 (str_of_int n) = Some n.
Proof using Type todecimal_ascii.
  intro Hn. destruct n as [|p|p]; [| |lia].
  - cbn [str_of_int int_from]. now ascii_digit.
  - cbn [str_of_int]. pose proof (int_from_uint (Pos.to_uint p)) as H.
    now rewrite DecimalPos.Unsigned.of_to in H.
Qed.

(** [str] writes a positive number without a leading zero. *)
Lemma to_uint_no_leading_zero (p : positive) (r : Decimal.uint) :
  Pos.to_uint p <> Decimal.D0 r.
Proof.
  intro H.
  pose proof (DecimalPos.Unsigned.to_of (Pos.to_uint p)) as Hn.
  rewrite DecimalPos.Unsigned.of_to in Hn. cbn [N.to_uint] in Hn.
  rewrite H, DecimalFacts.unorm_D0 in Hn.
  destruct (Decimal.uint_eq_dec r Decimal.Nil) as [-> | Hr].
  - now apply (DecimalPos.Unsigned.to_uint_nonzero p).
  - pose proof (DecimalFacts.nb_digits_unorm r Hr) as Hlen.
    rewrite <- Hn in Hlen. cbn [Decimal.nb_digits] in Hlen. lia.
Qed.

(** A number written with [k + 1] digits is at least the [k]-th power of
    ten. *)
Lemma to_uint_digits_lower (p : positive) :
  10 ^ (Z.of_nat (List.length (uint_digits (Pos.to_uint p))) - 1) <= Zpos p.
Proof using Type todecimal_ascii todecimal_digit.
  pose proof (int_from_uint (Pos.to_uint p)) as H.
  rewrite DecimalPos.Unsigned.of_to in H. cbn [Z.of_N] in H.
  pose proof (to_uint_no_leading_zero p) as Hzero.
  pose proof (DecimalPos.Unsigned.to_uint_nonnil p) as Hnil.
  destruct (Pos.to_uint p) as [|r|r|r|r|r|r|r|r|r|r];
    [congruence | now elim (Hzero r) | ..];
    cbn [uint_digits int_from List.length] in H |- *;
    rewrite (todecimal_ascii _) in H by reflexivity;
    match type of H with
    | context [ascii_todecimal ?c] =>
        let v := eval vm_compute in (ascii_todecimal c) in
        change (ascii_todecimal c) with v in H
    end; cbv iota beta in H;
    (apply int_from_bounds in H; [|lia]);
    rewrite Nat2Z.inj_succ;
    replace (Z.succ (Z.of_nat (List.length (uint_digits r))) - 1)
      with (Z.of_nat (List.length (uint_digits r))) by lia;
    assert (Hpow : 0 < 10 ^ Z.of_nat (List.length (uint_digits r)))
      by (apply Z.pow_pos_nonneg; lia);
    lia.
Qed.

(** A value of at most 2147483647 is written with at most ten digits. *)
Lemma str_of_int_short (n : Z) :
  0 <= n <= 2147483647 -> Z.of_nat (List.length (str_of_int n)) <= 10.
Proof using Type todecimal_ascii todecimal_digit.
  intros [Hn Hmax]. destruct n as [|p|p]; [cbn; lia | | lia].
  cbn [str_of_int]. pose proof (to_uint_digits_lower p) as H.
  destruct (Z.le_gt_cases
              (Z.of_nat (List.length (uint_digits (Pos.to_uint p)))) 10)
    as [Hle | Hgt]; [exact Hle|].
  exfalso.
  assert (Hpow : 10 ^ 10
                 <= 10 ^ (Z.of_nat
                            (List.length (uint_digits (Pos.to_uint p))) - 1))
    by (apply Z.pow_le_mono_r; lia).
  change (10 ^ 10) with 10000000000 in Hpow. lia.
Qed.

Lemma str_of_int_integer (n : Z) : 0 <= n -> is_integer (str_of_int n).
Proof using Type todecimal_ascii.
  intro Hn. split.
  - destruct n as [|p|p]; [discriminate | | lia].
    apply to_uint_digits_nonempty.
  - destruct n as [|p|p]; [| |lia]; cbn [str_of_int].
    + constructor; [|constructor]. unfold isdecimal.
      now rewrite todecimal_ascii.
    + apply uint_digits_decimal.
Qed.

Lemma int_str_of_int (n : Z) :
  0 <= n <= 2147483647 -> int (str_of_int n) = Some n.
Proof using Type todecimal_ascii todecimal_digit.
  intro Hn. apply int_short.
  - apply str_of_int_integer. lia.
  - pose proof (str_of_int_short n Hn). lia.
  - apply int_from_str_of_int. lia.
Qed.

(** ** Facts about the progress handler *)

Lemma emit_all_app (cs1 cs2 : list call) (g : gui) :
  emit_all (cs1 ++ cs2) g = emit_all cs2 (emit_all cs1 g).
Proof. unfold emit_all. apply fold_left_app. Qed.

Lemma calls_emit_all (cs : list call) :
  forall g, calls (emit_all cs g) = calls g ++ cs.
Proof.
  induction cs as [|c cs IH]; intro g; cbn.
  - now rewrite app_nil_r.
  - change (calls (emit_all cs (emit c g)) = calls g ++ c :: cs).
    rewrite IH. cbn. now rewrite <- app_assoc.
Qed.

(** The handler on a marker whose integers [int] reads and the progress
    bar takes. *)
Lemma maybe_update_progress_run (line first second : str)
  (current total : Z) (g : gui) :
  progress_re_search line = Some (first, second) ->
  int first = Some current -> int second = Some total ->
  0 <= current <= 2147483647 -> 0 <= total <= 2147483647 ->
  _maybe_update_progress line g
  = Returned (emit_all (progress_report current total) g).
Proof.
  intros Hs Hc Ht Bc Bt.
  unfold _maybe_update_progress, progress_setRange, progress_setValue.
  rewrite Hs, Hc, Ht. change (fits_int 0) with true.
  rewrite (fits_int_true total Bt). cbn [andb and_next].
  now rewrite (fits_int_true current Bc).
Qed.

Lemma maybe_update_progress_found (line first second : str) (g : gui) :
  progress_re_search line = Some (first, second) ->
  within_limits first -> within_limits second ->
  exists current total,
    int first = Some current /\ int second = Some total
    /\ _maybe_update_progress line g
       = Returned (emit_all (progress_report current total) g).
Proof using Type todecimal_ascii todecimal_digit.
  intros Hs [L1 V1] [L2 V2].
  destruct (progress_re_search_sound _ _ _ Hs)
    as [pre [[[N1 D1] [[N2 D2] _]] _]].
  destruct (int_from_decimal first D1 0) as [current Hc].
  destruct (int_from_decimal second D2 0) as [total Ht].
  pose proof (int_from_nonneg _ _ Hc) as Pc.
  pose proof (int_from_nonneg _ _ Ht) as Pt.
  pose proof (V1 _ Hc) as Mc. pose proof (V2 _ Ht) as Mt.
  pose proof (int_short first current N1 L1 Hc) as Ic.
  pose proof (int_short second total N2 L2 Ht) as It.
  exists current, total. split; [exact Ic|]. split; [exact It|].
  apply (maybe_update_progress_run line first second); auto.
Qed.

Lemma maybe_update_progress_absent (line : str) (g : gui) :
  progress_re_search line = None -> _maybe_update_progress line g = Returned g.
Proof. intro Hs. unfold _maybe_update_progress. now rewrite Hs. Qed.

(** A marker written with [str] is read back as the same two integers. *)
Lemma maybe_update_progress_written (current total : Z) (post : str) (g : gui) :
  0 <= current <= 2147483647 -> 0 <= total <= 2147483647 ->
  _maybe_update_progress
    (lit "[" ++ str_of_int current ++ lit "/" ++ str_of_int total
     ++ lit "]" ++ post) g
  = Returned (emit_all (progress_report current total) g).
Proof using Type todecimal_ascii todecimal_digit.
  intros Hc Ht.
  assert (Hm : marker_after []
                 (lit "[" ++ str_of_int current ++ lit "/"
                  ++ str_of_int total ++ lit "]" ++ post)
                 (str_of_int current) (str_of_int total)).
  { split; [apply str_of_int_integer; lia|].
    split; [apply str_of_int_integer; lia|]. now exists post. }
  apply progress_re_match_complete in Hm.
  apply (maybe_update_progress_run _ (str_of_int current) (str_of_int total));
    try assumption; try (now apply int_str_of_int).
  change (lit "[") with [91%N] in *. cbn [app] in *.
  cbn [progress_re_search]. now rewrite Hm.
Qed.

(** Whether it returns or raises, the handler has made calls on the
    progress bar and the status label only. *)
Lemma maybe_update_progress_shape (line : str) (g : gui) :
  exists new,
    window_after (_maybe_update_progress line g) = emit_all new g
    /\ forallb is_progress_call new = true.
Proof.
  unfold _maybe_update_progress, progress_setRange, progress_setValue.
  destruct (progress_re_search line) as [[first second]|];
    [|now exists []].
  destruct (int first) as [current|]; [|now exists []].
  destruct (int second) as [total|]; [|now exists []].
  destruct (fits_int 0 && fits_int total); cbn [and_next];
    [|now exists []].
  destruct (fits_int current); cbn [and_next].
  - now exists (progress_report current total).
  - now exists [progress_bar_setRange 0 total].
Qed.

Lemma output_lines_raised (lines : list str) (e : exception) (g : gui) :
  fold_left (fun acc line => and_next acc (_maybe_update_progress line))
            lines (Raised e g)
  = Raised e g.
Proof. induction lines as [|l ls IH]; [reflexivity | exact IH]. Qed.

(** The loop of [_handle_process_output] over the lines of a chunk makes
    calls on the progress bar and the status label only. *)
Lemma output_lines_shape (lines : list str) :
  forall g0,
  exists new,
    window_after
      (fold_left (fun acc line => and_next acc (_maybe_update_progress line))
                 lines (Returned g0))
    = emit_all new g0
    /\ forallb is_progress_call new = true.
Proof.
  induction lines as [|l ls IH]; intro g0.
  - now exists [].
  - cbn [fold_left and_next].
    destruct (maybe_update_progress_shape l g0) as [new1 [H1 P1]].
    destruct (_maybe_update_progress l g0) as [g1 | e g1];
      cbn [window_after] in H1; subst g1.
    + destruct (IH (emit_all new1 g0)) as [new2 [H2 P2]].
      exists (new1 ++ new2). split.
      * now rewrite H2, emit_all_app.
      * now rewrite forallb_app, P1, P2.
    + rewrite output_lines_raised. now exists new1.
Qed.

(** Over lines whose markers are within the limits the loop returns, and
    it has made the report of every line that holds a marker. *)
Lemma output_lines_reports (lines : list str) :
  (forall line pre first second,
      In line lines -> leftmost_marker pre line first second ->
      within_limits first /\ within_limits second) ->
  forall g0,
  exists new,
    fold_left (fun acc line => and_next acc (_maybe_update_progress line))
              lines (Returned g0)
    = Returned (emit_all new g0)
    /\ forall line,
         In line lines -> contains_marker line ->
         exists pre first second current total before after,
           leftmost_marker pre line first second
           /\ int first = Some current /\ int second = Some total
           /\ new = before ++ progress_report current total ++ after.
Proof using Type todecimal_ascii todecimal_digit.
  induction lines as [|l ls IH]; intros Hlim g0.
  - exists []. split; [reflexivity|]. intros line [].
  - assert (Hrest : forall line pre first second,
               In line ls -> leftmost_marker pre line first second ->
               within_limits first /\ within_limits second).
    { intros line pre first second Hin. apply Hlim. now right. }
    cbn [fold_left and_next].
    destruct (progress_re_search l) as [[first second]|] eqn:Hs.
    + destruct (progress_re_search_sound _ _ _ Hs) as [pre Hpre].
      destruct (Hlim l pre first second (or_introl eq_refl) Hpre) as [W1 W2].
      destruct (maybe_update_progress_found l first second g0 Hs W1 W2)
        as [current [total [Hc [Ht Hrun]]]].
      rewrite Hrun.
      destruct (IH Hrest (emit_all (progress_report current total) g0))
        as [new [Hfold Hin]].
      exists (progress_report current total ++ new). split.
      * rewrite Hfold. now rewrite emit_all_app.
      * intros line [<- | Hline] Hmark.
        -- exists pre, first, second, current, total, [], new.
           split; [exact Hpre|]. split; [exact Hc|]. split; [exact Ht|].
           reflexivity.
        -- destruct (Hin line Hline Hmark)
             as [pre' [a [b [c [t [before [after [H1 [H2 [H3 ->]]]]]]]]]].
           exists pre', a, b, c, t, (progress_report current total ++ before),
             after.
           split; [exact H1|]. split; [exact H2|]. split; [exact H3|].
           apply app_assoc.
    + rewrite (maybe_update_progress_absent l g0 Hs).
      destruct (IH Hrest g0) as [new [Hfold Hin]].
      exists new. split; [assumption|].
      intros line [<- | Hline] Hmark.
      * now apply progress_re_search_none in Hs.
      * now apply Hin.
Qed.

Lemma start_process_spawn_idle (g : gui) :
  process_active g = false ->
  _start_process_spawn g
  = write_process (Some Starting) (emit_all (spawn_calls g) g).
Proof.
  intro H. unfold _start_process_spawn. rewrite H. reflexivity.
Qed.

Lemma start_process_spawn_active (g : gui) :
  process_active g = true ->
  _start_process_spawn g
  = emit (QMessageBox_show Warning (lit "Already running")
            (lit "A process is already running.")) g.
Proof.
  intro H. unfold _start_process_spawn. now rewrite H.
Qed.

(** C5, within the limits of the interpreter and of the progress bar.  A
    line that holds a marker [[<integer>/<integer>]] whose integers have at
    most 4300 digits and values of at most 2147483647 makes the handler
    request the range (0, total) and the value current from the progress
    bar and set the status text to "Processing current of total", where
    current and total are the first and second integer of the leftmost
    marker of the line; this is done for every such line of an output
    chunk whose markers are all within these limits.  For the chunk
    "foo\n[3/10] bar\n" the requests are the range (0,10), the value 3 and
    the text "Processing 3 of 10".  A line without a marker changes
    nothing. *)
Theorem progress_marker_updates :
  (forall line g,
      contains_marker line ->
      exists pre first second,
        leftmost_marker pre line first second
        /\ (within_limits first -> within_limits second ->
            exists current total,
              int first = Some current /\ int second = Some total
              /\ _maybe_update_progress line g
                 = Returned (emit_all (progress_report current total) g)))
  /\ (forall data g line,
        process g <> None -> lines_within_limits data ->
        In line (splitlines data) -> contains_marker line ->
        exists new pre first second current total before after,
          _handle_process_output data g
          = Returned (emit_all (log_output_insertText data :: new) g)
          /\ leftmost_marker pre line first second
          /\ int first = Some current /\ int second = Some total
          /\ new = before ++ progress_report current total ++ after)
  /\ (forall g,
        process g <> None ->
        _handle_process_output (lit "foo" ++ nl ++ lit "[3/10] bar" ++ nl) g
        = Returned (emit_all
                      [log_output_insertText
                         (lit "foo" ++ nl ++ lit "[3/10] bar" ++ nl);
                       progress_bar_setRange 0 10;
                       progress_bar_setValue 3;
                       status_label_setText (lit "Processing 3 of 10")] g))
  /\ (forall line g,
        ~ contains_marker line -> _maybe_update_progress line g = Returned g).
Proof using Type todecimal_ascii todecimal_digit.
  split; [|split; [|split]].
  - intros line g Hc.
    destruct (progress_re_search_found line Hc)
      as [pre [first [second [Hleft Hs]]]].
    exists pre, first, second. split; [exact Hleft|].
    intros W1 W2.
    exact (maybe_update_progress_found line first second g Hs W1 W2).
  - intros data g line Hp Hlim Hin Hc. unfold _handle_process_output.
    destruct (process g) as [st|]; [|congruence].
    destruct data as [|c data]; [destruct Hin|].
    cbn [nonempty negb].
    destruct (output_lines_reports (splitlines (c :: data)) Hlim
                (_append_log (c :: data) g)) as [new [Hfold Hall]].
    destruct (Hall line Hin Hc)
      as [pre [a [b [cur [tot [before [after [H1 [H2 [H3 H4]]]]]]]]]].
    exists new, pre, a, b, cur, tot, before, after.
    split; [exact Hfold|]. auto.
  - intros g Hp. unfold _handle_process_output.
    destruct (process g) as [st|]; [|congruence].
    change (splitlines (lit "foo" ++ nl ++ lit "[3/10] bar" ++ nl))
      with [lit "foo";
            lit "[" ++ str_of_int 3 ++ lit "/" ++ str_of_int 10
            ++ lit "]" ++ lit " bar"].
    change (nonempty (lit "foo" ++ nl ++ lit "[3/10] bar" ++ nl)) with true.
    cbn [negb fold_left]. unfold and_next.
    rewrite maybe_update_progress_absent by (vm_compute; reflexivity).
    rewrite maybe_update_progress_written by lia. reflexivity.
  - intros line g Hc. apply maybe_update_progress_absent.
    now apply progress_re_search_absent.
Qed.

(** C10, within the limits of the interpreter and of the progress bar.
    The handler does not validate the integers of a marker: whatever the
    two values are, as long as each is written with at most 4300 digits
    and is at most 2147483647, it requests the range (0, total) and the
    value current.  This covers a total of zero and a current above the
    total.  For "[0/0]" the requested range is (0,0), the range a start
    requests for the indeterminate display, and not the range (0,1) with
    value 1 that the finish handler requests. *)
Theorem progress_values_unvalidated :
  (forall line g first second,
      progress_re_search line = Some (first, second) ->
      within_limits first -> within_limits second ->
      exists current total,
        int first = Some current /\ int second = Some total
        /\ _maybe_update_progress line g
           = Returned (emit_all
                         [progress_bar_setRange 0 total;
                          progress_bar_setValue current;
                          status_label_setText
                            (lit "Processing " ++ str_of_int current
                             ++ lit " of " ++ str_of_int total)] g))
  /\ (forall current total post g,
        0 <= current <= 2147483647 -> 0 <= total <= 2147483647 ->
        _maybe_update_progress
          (lit "[" ++ str_of_int current ++ lit "/" ++ str_of_int total
           ++ lit "]" ++ post) g
        = Returned (emit_all
                      [progress_bar_setRange 0 total;
                       progress_bar_setValue current;
                       status_label_setText
                         (lit "Processing " ++ str_of_int current
                          ++ lit " of " ++ str_of_int total)] g))
  /\ (forall g,
        _maybe_update_progress (lit "[0/0]") g
        = Returned (emit_all
                      [progress_bar_setRange 0 0;
                       progress_bar_setValue 0;
                       status_label_setText (lit "Processing 0 of 0")] g))
  /\ (forall g,
        _maybe_update_progress (lit "[5/3]") g
        = Returned (emit_all
                      [progress_bar_setRange 0 3;
                       progress_bar_setValue 5;
                       status_label_setText (lit "Processing 5 of 3")] g))
  /\ (forall g,
        process_active g = false ->
        In (progress_bar_setRange 0 0) (calls (_start_process_spawn g)))
  /\ (forall exit_code g,
        calls (_handle_process_finished exit_code g)
        = calls g ++
          [start_button_setEnabled true;
           stop_button_setEnabled false;
           progress_bar_setRange 0 1;
           progress_bar_setValue 1;
           status_label_setText
             (lit "Finished (exit code " ++ str_of_int exit_code ++ lit ")");
           log_output_insertText
             (lit "Process finished with exit code "
              ++ str_of_int exit_code ++ lit "." ++ nl)]).
Proof using Type todecimal_ascii todecimal_digit.
  split; [|split; [|split; [|split; [|split]]]].
  - intros line g first second Hs W1 W2.
    exact (maybe_update_progress_found line first second g Hs W1 W2).
  - intros current total post g Hc Ht.
    exact (maybe_update_progress_written current total post g Hc Ht).
  - intro g.
    refine (maybe_update_progress_written 0 0 [] g _ _); lia.
  - intro g.
    refine (maybe_update_progress_written 5 3 [] g _ _); lia.
  - intros g H. rewrite (start_process_spawn_idle g H).
    change (calls (write_process (Some Starting) (emit_all (spawn_calls g) g)))
      with (calls (emit_all (spawn_calls g) g)).
    rewrite calls_emit_all. apply in_or_app. right. cbn. auto 6.
  - intros exit_code g. unfold _handle_process_finished, _append_log. cbn.
    repeat rewrite <- app_assoc. reflexivity.
Qed.

(** ** Facts about the process supervisor *)

Lemma process_active_true (g : gui) :
  process_active g = true <-> already_running g.
Proof.
  unfold process_active, already_running. split.
  - destruct (process g) as [[| |]|] eqn:Hp; try discriminate; intros _;
      eexists; (split; [reflexivity | discriminate]).
  - intros [st [-> Hst]]. destruct st; congruence.
Qed.

Lemma process_emit_all (cs : list call) :
  forall g, process (emit_all cs g) = process g.
Proof.
  induction cs as [|c cs IH]; intro g; [reflexivity|].
  change (process (emit_all cs (emit c g)) = process g). now rewrite IH.
Qed.

(** C6, for a start whose queries to the file system answer.  When a
    precondition of a start fails and every query the start consults
    answers, the start ends in exactly one modal message; apart from the
    metadata warning that may precede it in the log, nothing else is done:
    no call reaches a process, none is spawned, and the process handle is
    the one that was there.  When a query the start consults does not
    answer, [OSError] leaves the handler: no message is shown and no call
    is made. *)
Theorem start_blocked (g : gui) :
  (start_precondition_fails g -> start_queries_answer g ->
   exists warning i title text,
     _start_process g
     = Returned (emit_all (warning ++ [QMessageBox_show i title text]) g)
     /\ (warning = [] \/ warning = [log_output_insertText metadata_warning])
     /\ existsb is_process_call (warning ++ [QMessageBox_show i title text])
        = false
     /\ process (window_after (_start_process g)) = process g)
  /\ (~ start_queries_answer g -> _start_process g = Raised OSError g).
Proof.
  split.
  - intros Hfail [script_found [Hscript Hrest]].
    assert (Hshape : exists warning i title text,
               _start_process g
               = Returned
                   (emit_all (warning ++ [QMessageBox_show i title text]) g)
               /\ (warning = []
                   \/ warning = [log_output_insertText metadata_warning])).
    { unfold _start_process, QMessageBox_critical, QMessageBox_warning.
      rewrite Hscript. destruct script_found.
      2: { now exists [], Critical, (lit "Missing script"),
             (lit "Could not find " ++ script_path ++ lit "."); auto. }
      specialize (Hrest eq_refl). cbv zeta.
      destruct (mode_combo_currentIndex g =? 0) eqn:Hmode.
      - apply Z.eqb_eq in Hmode.
        destruct (nonempty (strip (html_path_edit_text g))) eqn:Hhtml;
          cbn [negb].
        2: { now exists [], Warning, (lit "Missing HTML"),
               (lit "Please select memories_history.html."); auto. }
        apply nonempty_true in Hhtml.
        destruct (Hrest Hhtml) as [html_found [Hfile Hmeta]].
        rewrite Hfile. destruct html_found.
        2: { now exists [], Warning, (lit "Missing file"),
               (lit "The selected HTML path does not exist."); auto. }
        specialize (Hmeta eq_refl Hmode).
        assert (Hrun : already_running g).
        { destruct Hfail as [H | [[_ [H | H]] | [[H _] | H]]];
            try congruence; try lia; exact H. }
        apply process_active_true in Hrun.
        fold (chosen_output_dir g).
        destruct (isChecked g resume_checkbox
                  || isChecked g retry_failed_checkbox).
        + specialize (Hmeta eq_refl).
          destruct (Path_exists
                      (Path_joinpath (chosen_output_dir g)
                         (lit "metadata.json"))) as [[|]|];
            [| |congruence].
          * rewrite start_process_spawn_active by exact Hrun.
            now exists [], Warning, (lit "Already running"),
              (lit "A process is already running."); auto.
          * rewrite start_process_spawn_active by exact Hrun.
            now exists [log_output_insertText metadata_warning], Warning,
              (lit "Already running"), (lit "A process is already running.");
              auto.
        + rewrite start_process_spawn_active by exact Hrun.
          now exists [], Warning, (lit "Already running"),
            (lit "A process is already running."); auto.
      - apply Z.eqb_neq in Hmode.
        destruct (nonempty (strip (merge_folder_edit_text g))) eqn:Hfolder;
          cbn [negb].
        2: { now exists [], Warning, (lit "Missing folder"),
               (lit "Please select a folder to merge."); auto. }
        apply nonempty_true in Hfolder. specialize (Hrest Hfolder).
        destruct (Path_is_dir (strip (merge_folder_edit_text g)))
          as [[|]|] eqn:Hdir; [| |congruence].
        2: { now exists [], Warning, (lit "Invalid folder"),
               (lit "The selected folder does not exist."); auto. }
        assert (Hrun : already_running g).
        { destruct Hfail as [H | [[H _] | [[_ [H | H]] | H]]];
            try congruence; exact H. }
        apply process_active_true in Hrun.
        rewrite start_process_spawn_active by exact Hrun.
        now exists [], Warning, (lit "Already running"),
          (lit "A process is already running."); auto. }
    destruct Hshape as [warning [i [title [text [Heq Hw]]]]].
    exists warning, i, title, text.
    split; [exact Heq|]. split; [exact Hw|]. split.
    + destruct Hw as [-> | ->]; reflexivity.
    + rewrite Heq. apply process_emit_all.
  - intro Hno. unfold _start_process.
    destruct (Path_exists script_path) as [[|]|] eqn:Hscript;
      [| |reflexivity].
    2: { exfalso. apply Hno. exists false. split; [exact Hscript|].
         discriminate. }
    cbv zeta. destruct (mode_combo_currentIndex g =? 0) eqn:Hmode.
    + destruct (nonempty (strip (html_path_edit_text g))) eqn:Hhtml;
        cbn [negb].
      2: { exfalso. apply Hno. exists true. split; [exact Hscript|].
           intros _. rewrite Hmode. intro Hne. apply nonempty_true in Hne.
           congruence. }
      destruct (Path_exists (strip (html_path_edit_text g)))
        as [[|]|] eqn:Hfile; [| |reflexivity].
      2: { exfalso. apply Hno. exists true. split; [exact Hscript|].
           intros _. rewrite Hmode. intros _. exists false.
           split; [exact Hfile | discriminate]. }
      fold (chosen_output_dir g).
      destruct (isChecked g resume_checkbox
                || isChecked g retry_failed_checkbox) eqn:Hflag.
      * destruct (Path_exists
                    (Path_joinpath (chosen_output_dir g)
                       (lit "metadata.json"))) as [found|] eqn:Hmeta;
          [|reflexivity].
        exfalso. apply Hno. exists true. split; [exact Hscript|].
        intros _. rewrite Hmode. intros _. exists true.
        split; [exact Hfile|]. intros _ _ _. rewrite Hmeta. discriminate.
      * exfalso. apply Hno. exists true. split; [exact Hscript|].
        intros _. rewrite Hmode. intros _. exists true.
        split; [exact Hfile|]. intros _ _ Hchecked. congruence.
    + destruct (nonempty (strip (merge_folder_edit_text g))) eqn:Hfolder;
        cbn [negb].
      2: { exfalso. apply Hno. exists true. split; [exact Hscript|].
           intros _. rewrite Hmode. intro Hne. apply nonempty_true in Hne.
           congruence. }
      destruct (Path_is_dir (strip (merge_folder_edit_text g)))
        as [found|] eqn:Hdir; [|reflexivity].
      exfalso. apply Hno. exists true. split; [exact Hscript|].
      intros _. rewrite Hmode. intros _. rewrite Hdir. discriminate.
Qed.

(** C7, as the program has it.  In download mode, when the blocking checks
    pass (the script exists, the stripped HTML path is not empty and
    exists, no process is running), a start with resume or retry-failed
    checked and no [metadata.json] under the chosen output directory
    appends the warning to the log and then spawns the process with the
    built arguments. *)
Theorem start_warns_and_spawns (g : gui) :
  Path_exists script_path = Some true ->
  mode_combo_currentIndex g = 0 ->
  strip (html_path_edit_text g) <> [] ->
  Path_exists (strip (html_path_edit_text g)) = Some true ->
  ~ already_running g ->
  isChecked g resume_checkbox = true
  \/ isChecked g retry_failed_checkbox = true ->
  Path_exists (Path_joinpath (chosen_output_dir g) (lit "metadata.json"))
  = Some false ->
  _start_process g
  = Returned
      (write_process (Some Starting)
         (emit_all (log_output_insertText metadata_warning :: spawn_calls g)
            g))
  /\ In (log_output_insertText metadata_warning)
        (calls (window_after (_start_process g)))
  /\ In (process_start sys_executable
           ([lit "-u"; script_path] ++ _build_args g))
        (calls (window_after (_start_process g)))
  /\ process (window_after (_start_process g)) = Some Starting.
Proof.
  intros Hscript Hmode Hhtml Hfile Hidle Hflag Hmeta.
  assert (Hactive : process_active g = false).
  { apply not_true_is_false. intro H. now apply process_active_true in H. }
  assert (Heq : _start_process g
                = Returned
                    (write_process (Some Starting)
                       (emit_all
                          (log_output_insertText metadata_warning
                           :: spawn_calls g) g))).
  { unfold _start_process. rewrite Hscript, Hmode. cbn [negb Z.eqb].
    apply nonempty_true in Hhtml. rewrite Hhtml, Hfile. cbn [negb].
    fold (chosen_output_dir g). rewrite Hmeta.
    replace (isChecked g resume_checkbox || isChecked g retry_failed_checkbox)
      with true
      by (symmetry; apply orb_true_iff; exact Hflag).
    rewrite start_process_spawn_idle by exact Hactive. reflexivity. }
  split; [exact Heq|]. rewrite Heq. cbn [window_after].
  change (calls (write_process (Some Starting)
                   (emit_all (log_output_insertText metadata_warning
                              :: spawn_calls g) g)))
    with (calls (emit_all (log_output_insertText metadata_warning
                           :: spawn_calls g) g)).
  rewrite calls_emit_all.
  split; [|split; [|reflexivity]]; apply in_or_app; right.
  - now left.
  - right. unfold spawn_calls. cbn [In]. auto 12.
Qed.

(** C8. A stop on a running process first requests termination, waits at
    most 2000 milliseconds, then kills the process exactly once if the wait
    reports that it has not exited and not at all if it has, and logs the
    action.  A stop without a process, or with one that is not running,
    does nothing. *)
Theorem stop_terminates_then_kills (waitForFinished : Z -> bool) (g : gui) :
  (already_running g ->
     exists forced,
       _stop_process waitForFinished g
       = emit_all ([process_terminate; process_waitForFinished 2000]
                   ++ forced
                   ++ [log_output_insertText
                         (lit "Process stopped by user." ++ nl)]) g
       /\ (waitForFinished 2000 = false -> forced = [process_kill])
       /\ (waitForFinished 2000 = true -> forced = [])
       /\ List.length
            (filter is_kill
               (skipn (List.length (calls g))
                  (calls (_stop_process waitForFinished g))))
          = if waitForFinished 2000 then 0%nat else 1%nat)
  /\ (process g = None \/ process g = Some NotRunning ->
      _stop_process waitForFinished g = g).
Proof.
  split.
  - intros [st [Hp Hst]].
    exists (if waitForFinished 2000 then [] else [process_kill]).
    assert (Heq : _stop_process waitForFinished g
                  = emit_all ([process_terminate; process_waitForFinished 2000]
                              ++ (if waitForFinished 2000 then []
                                  else [process_kill])
                              ++ [log_output_insertText
                                    (lit "Process stopped by user." ++ nl)])
                      g).
    { unfold _stop_process. rewrite Hp.
      destruct st; [congruence| |]; now destruct (waitForFinished 2000). }
    split; [exact Heq|].
    split; [now intros ->|]. split; [now intros ->|].
    rewrite Heq, calls_emit_all, skipn_app, Nat.sub_diag, skipn_all.
    now destruct (waitForFinished 2000).
  - unfold _stop_process. now intros [-> | ->].
Qed.

(** ** Facts about the rendering of one argument *)

Lemma isquote_dquote : isquote 34%N = true.
Proof. reflexivity. Qed.

(** A string rendered as it is holds no double quote. *)
Lemma display_arg_cases (v : str) :
  (v = [] /\ _display_arg v = dquote ++ dquote)
  \/ (v <> [] /\ _display_arg v = dquote ++ v ++ dquote)
  \/ (v <> [] /\ _display_arg v = v /\ existsb isquote v = false).
Proof.
  unfold _display_arg. destruct v as [|c v]; [now left|]. right.
  cbn [nonempty negb].
  destruct (existsb isspace (c :: v)); cbn [orb].
  - left. split; [discriminate | reflexivity].
  - destruct (existsb isquote (c :: v)) eqn:Hq.
    + left. split; [discriminate | reflexivity].
    + right. split; [discriminate|]. split; reflexivity.
Qed.

Lemma no_quote_head (c : char) (v : str) :
  existsb isquote (c :: v) = false -> c <> 34%N.
Proof.
  cbn [existsb]. intros H ->. rewrite isquote_dquote in H. discriminate.
Qed.

(** The rendering of a single argument can be read back: two arguments
    with the same rendering are the same argument. *)
Theorem display_arg_injective (a b : str) :
  _display_arg a = _display_arg b -> a = b.
Proof.
  intro H.
  destruct (display_arg_cases a) as [[Ha Ea] | [[Ha Ea] | [Ha [Ea Qa]]]];
    destruct (display_arg_cases b) as [[Hb Eb] | [[Hb Eb] | [Hb [Eb Qb]]]];
    rewrite Ea, Eb in H.
  - congruence.
  - exfalso. cbn in H. injection H as H. destruct b; [congruence|].
    cbn in H. destruct b; discriminate.
  - exfalso. subst b. cbn in Qb. discriminate.
  - exfalso. cbn in H. injection H as H. destruct a; [congruence|].
    cbn in H. destruct a; discriminate.
  - cbn in H. injection H as H. apply app_inv_tail in H. exact H.
  - exfalso. destruct b as [|c b]; [congruence|].
    apply no_quote_head in Qb. cbn in H. congruence.
  - exfalso. subst a. cbn in Qa. discriminate.
  - exfalso. destruct a as [|c a]; [congruence|].
    apply no_quote_head in Qa. cbn in H. congruence.
  - exact H.
Qed.

(** ** Facts about the built arguments *)

Lemma lstrip_head (s : str) (c : char) (r : str) :
  lstrip s = c :: r -> isspace c = false.
Proof.
  induction s as [|a s IH]; cbn [lstrip]; [discriminate|].
  destruct (isspace a) eqn:Ha; [exact IH|].
  intro H. injection H as -> _. exact Ha.
Qed.

Lemma lstrip_suffix (s : str) : exists ws, s = ws ++ lstrip s.
Proof.
  induction s as [|a s [ws IH]]; cbn [lstrip]; [now exists []|].
  destruct (isspace a).
  - exists (a :: ws). cbn. now rewrite <- IH.
  - now exists [].
Qed.

Lemma strip_trimmed (s : str) : strip s <> [] -> trimmed (strip s).
Proof.
  unfold strip, rstrip. intro Hne.
  destruct (lstrip (rev (lstrip s))) as [|c r] eqn:Hu; [now cbn in Hne|].
  pose proof (lstrip_head _ _ _ Hu) as Hc.
  destruct (lstrip_suffix (rev (lstrip s))) as [ws Hws]. rewrite Hu in Hws.
  apply (f_equal (@rev char)) in Hws.
  rewrite rev_involutive, rev_app_distr in Hws.
  destruct (rev (c :: r)) as [|h tl] eqn:Hrev.
  - apply (f_equal (@List.length char)) in Hrev.
    rewrite length_rev in Hrev. discriminate.
  - exists h. split; [reflexivity|]. split.
    + cbn in Hws. now apply lstrip_head in Hws.
    + rewrite <- Hrev. cbn [rev]. now rewrite last_last.
Qed.

Lemma last_in (s : str) (d : char) : s <> [] -> In (last s d) s.
Proof.
  induction s as [|a s IH]; [congruence|]. intros _.
  destruct s as [|b s]; [now left|].
  right. apply IH. discriminate.
Qed.

Lemma uint_digits_ascii (d : Decimal.uint) :
  Forall (fun c => In c (lit "0123456789")) (uint_digits d).
Proof.
  induction d; cbn [uint_digits]; constructor; try assumption;
    cbn; auto 12.
Qed.

Lemma str_of_int_trimmed (n : Z) : 0 < n -> trimmed (str_of_int n).
Proof.
  intro Hn. destruct n as [|p|p]; try lia. cbn [str_of_int].
  pose proof (to_uint_digits_nonempty p) as Hne.
  pose proof (uint_digits_ascii (Pos.to_uint p)) as Hd.
  assert (Hspace : forall c, In c (uint_digits (Pos.to_uint p)) ->
                             isspace c = false).
  { intros c Hc. rewrite Forall_forall in Hd. specialize (Hd c Hc).
    cbn in Hd.
    repeat (destruct Hd as [<- | Hd]; [reflexivity|]). destruct Hd. }
  destruct (uint_digits (Pos.to_uint p)) as [|c r] eqn:Hs; [congruence|].
  exists c. split; [reflexivity|]. split.
  - apply Hspace. now left.
  - apply Hspace. apply last_in. discriminate.
Qed.

Lemma build_args_merge (g : gui) :
  (mode_combo_currentIndex g =? 1) = true ->
  _build_args g =
  if nonempty (strip (merge_folder_edit_text g))
  then [lit "--merge-existing"; strip (merge_folder_edit_text g)]
  else [].
Proof.
  intro H. cbv delta [_build_args] beta. rewrite H. cbv iota. reflexivity.
Qed.

Lemma build_args_download (g : gui) :
  (mode_combo_currentIndex g =? 1) = false ->
  _build_args g =
    (if nonempty (strip (html_path_edit_text g))
     then [strip (html_path_edit_text g)] else [])
    ++ (if nonempty (strip (output_path_edit_text g))
        then [lit "-o"; strip (output_path_edit_text g)] else [])
    ++ enabled_flags g
    ++ (if threads_spin_value g >? 1
        then [lit "--threads"; str_of_int (threads_spin_value g)] else []).
Proof.
  intro H. unfold enabled_flags, download_flags. rewrite !enabled_cons.
  cbn [filter map fst snd].
  cbv delta [_build_args] beta. rewrite H. cbv iota.
  repeat next_statement.
  rewrite <- !app_assoc. reflexivity.
Qed.

Lemma enabled_flags_known (g : gui) (arg : str) :
  In arg (enabled_flags g) -> In arg (map snd download_flags).
Proof.
  unfold enabled_flags. rewrite !in_map_iff.
  intros [entry [He Hin]]. apply filter_In in Hin.
  destruct Hin as [Hin _]. exists entry. split; assumption.
Qed.

(** Whatever the form holds, every argument the builder emits is not
    empty and has no white space at either end. *)
Theorem build_args_trimmed (g : gui) (arg : str) :
  In arg (_build_args g) -> trimmed arg.
Proof.
  assert (Hlit : forall s, In s (lit "--merge-existing" :: lit "-o"
                                 :: lit "--threads"
                                 :: map snd download_flags) -> trimmed s).
  { intros s Hs. cbn in Hs.
    repeat (destruct Hs as [<- | Hs];
            [exists 45%N; repeat split; reflexivity|]).
    destruct Hs. }
  destruct (mode_combo_currentIndex g =? 1) eqn:Hmode.
  - rewrite (build_args_merge g Hmode).
    destruct (nonempty (strip (merge_folder_edit_text g))) eqn:Hf;
      [|intros []].
    apply nonempty_true in Hf.
    intros [<- | [<- | []]].
    + apply Hlit. cbn. auto.
    + now apply strip_trimmed.
  - rewrite (build_args_download g Hmode). intro Hin.
    apply in_app_or in Hin. destruct Hin as [Hin | Hin].
    { destruct (nonempty (strip (html_path_edit_text g))) eqn:Hh;
        [|destruct Hin].
      apply nonempty_true in Hh. destruct Hin as [<- | []].
      now apply strip_trimmed. }
    apply in_app_or in Hin. destruct Hin as [Hin | Hin].
    { destruct (nonempty (strip (output_path_edit_text g))) eqn:Ho;
        [|destruct Hin].
      apply nonempty_true in Ho. destruct Hin as [<- | [<- | []]].
      - apply Hlit. cbn. auto.
      - now apply strip_trimmed. }
    apply in_app_or in Hin. destruct Hin as [Hin | Hin].
    { apply Hlit. right. right. right. now apply (enabled_flags_known g). }
    destruct (threads_spin_value g >? 1) eqn:Ht; [|destruct Hin].
    apply Z.gtb_lt in Ht. destruct Hin as [<- | [<- | []]].
    + apply Hlit. cbn. auto.
    + apply str_of_int_trimmed. lia.
Qed.

(** ** Facts about windows that hold the same form *)

Lemma same_form_refl (g : gui) : same_form g g.
Proof. repeat split. Qed.

Lemma same_form_trans (g1 g2 g3 : gui) :
  same_form g1 g2 -> same_form g2 g3 -> same_form g1 g3.
Proof.
  unfold same_form.
  intros [A1 [A2 [A3 [A4 [A5 [A6 A7]]]]]] [B1 [B2 [B3 [B4 [B5 [B6 B7]]]]]].
  split; [congruence|]. split; [congruence|]. split; [congruence|].
  split; [congruence|]. split; [intro cb; now rewrite B5|].
  split; congruence.
Qed.

Lemma same_form_emit (c : call) (g : gui) : same_form g (emit c g).
Proof. repeat split. Qed.

Lemma same_form_write_process (p : option ProcessState) (g : gui) :
  same_form g (write_process p g).
Proof. repeat split. Qed.

Lemma same_form_emit_all (cs : list call) :
  forall g, same_form g (emit_all cs g).
Proof.
  induction cs as [|c cs IH]; intro g; [apply same_form_refl|].
  change (same_form g (emit_all cs (emit c g))).
  eapply same_form_trans; [apply same_form_emit | apply IH].
Qed.

(** The builder reads the texts, the mode, the check boxes and the thread
    count, and nothing else. *)
Lemma build_args_fields (g g' : gui) :
  mode_combo_currentIndex g' = mode_combo_currentIndex g ->
  html_path_edit_text g' = html_path_edit_text g ->
  output_path_edit_text g' = output_path_edit_text g ->
  merge_folder_edit_text g' = merge_folder_edit_text g ->
  (forall cb, isChecked g' cb = isChecked g cb) ->
  threads_spin_value g' = threads_spin_value g ->
  _build_args g' = _build_args g.
Proof.
  intros Hm Hh Ho Hf Hc Ht.
  cbv delta [_build_args] beta. now rewrite Hm, Hh, Ho, Hf, Ht, !Hc.
Qed.

Lemma command_preview_text_fields (g g' : gui) :
  mode_combo_currentIndex g' = mode_combo_currentIndex g ->
  html_path_edit_text g' = html_path_edit_text g ->
  output_path_edit_text g' = output_path_edit_text g ->
  merge_folder_edit_text g' = merge_folder_edit_text g ->
  (forall cb, isChecked g' cb = isChecked g cb) ->
  threads_spin_value g' = threads_spin_value g ->
  command_preview_text g' = command_preview_text g.
Proof.
  intros Hm Hh Ho Hf Hc Ht. unfold command_preview_text.
  now rewrite (build_args_fields g g' Hm Hh Ho Hf Hc Ht).
Qed.

Lemma build_args_same_form (g g' : gui) :
  same_form g g' -> _build_args g' = _build_args g.
Proof.
  intros [Hm [Hh [Ho [Hf [Hc [_ Ht]]]]]]. now apply build_args_fields.
Qed.

Lemma command_preview_text_same_form (g g' : gui) :
  same_form g g' -> command_preview_text g' = command_preview_text g.
Proof.
  intros [Hm [Hh [Ho [Hf [Hc [_ Ht]]]]]].
  now apply command_preview_text_fields.
Qed.

Lemma start_warning_same_form (g g' : gui) :
  same_form g g' -> start_warning g' = start_warning g.
Proof.
  intros [Hm [_ [Ho [_ [Hc _]]]]].
  unfold start_warning, chosen_output_dir. now rewrite Hm, Ho, !Hc.
Qed.

Lemma metadata_query_same_form (g g' : gui) :
  same_form g g' -> metadata_query_answers g -> metadata_query_answers g'.
Proof.
  intros [Hm [_ [Ho [_ [Hc _]]]]].
  unfold metadata_query_answers, chosen_output_dir.
  now rewrite Hm, Ho, !Hc.
Qed.

(** ** Facts about a start whose checks pass *)

Lemma start_process_checked (g : gui) :
  Path_exists script_path = Some true ->
  (mode_combo_currentIndex g = 0
   /\ strip (html_path_edit_text g) <> []
   /\ Path_exists (strip (html_path_edit_text g)) = Some true)
  \/ (mode_combo_currentIndex g = 1
      /\ strip (merge_folder_edit_text g) <> []
      /\ Path_is_dir (strip (merge_folder_edit_text g)) = Some true) ->
  metadata_query_answers g ->
  _start_process g
  = Returned (_start_process_spawn (emit_all (start_warning g) g)).
Proof.
  intros Hscript [[Hmode [Hne Hfile]] | [Hmode [Hne Hdir]]] Hmeta;
    unfold _start_process, start_warning; rewrite Hscript, Hmode;
    apply nonempty_true in Hne; cbn [negb Z.eqb andb].
  - rewrite Hne, Hfile. cbn [negb]. fold (chosen_output_dir g).
    destruct (isChecked g resume_checkbox
              || isChecked g retry_failed_checkbox) eqn:Hflag;
      [|reflexivity].
    specialize (Hmeta Hmode Hflag).
    now destruct (Path_exists
                    (Path_joinpath (chosen_output_dir g)
                       (lit "metadata.json"))) as [[|]|].
  - rewrite Hne, Hdir. reflexivity.
Qed.

Lemma start_warning_cases (g : gui) :
  start_warning g = []
  \/ start_warning g = [log_output_insertText metadata_warning].
Proof.
  unfold start_warning.
  destruct ((mode_combo_currentIndex g =? 0)
            && (isChecked g resume_checkbox
                || isChecked g retry_failed_checkbox)); [|now left].
  now destruct (Path_exists
                  (Path_joinpath (chosen_output_dir g)
                     (lit "metadata.json"))) as [[|]|]; [left | right | left].
Qed.

Lemma start_process_ready (g : gui) :
  start_ready g ->
  _start_process g
  = Returned
      (write_process (Some Starting)
         (emit_all (start_warning g ++ spawn_calls g) g)).
Proof.
  intros [Hscript [Hidle [Hpaths Hmeta]]].
  assert (Hactive : process_active g = false).
  { apply not_true_is_false. intro H. now apply process_active_true in H. }
  rewrite (start_process_checked g Hscript Hpaths Hmeta).
  destruct (start_warning_cases g) as [-> | ->];
    now rewrite start_process_spawn_idle by exact Hactive.
Qed.

(** When every check passes, a start spawns the child: it logs the
    metadata warning if due, makes the calls of a spawn and leaves the
    handle in the state Starting.  The path that was checked is the path
    that is passed: the HTML path is the first argument of the script in
    download mode, the folder follows [--merge-existing] in merge mode. *)
Theorem start_ready_spawns (g : gui) :
  start_ready g ->
  _start_process g
  = Returned
      (write_process (Some Starting)
         (emit_all (start_warning g ++ spawn_calls g) g))
  /\ (mode_combo_currentIndex g = 0 ->
      exists rest,
        _build_args g = strip (html_path_edit_text g) :: rest
        /\ Path_exists (strip (html_path_edit_text g)) = Some true)
  /\ (mode_combo_currentIndex g = 1 ->
      _build_args g
      = [lit "--merge-existing"; strip (merge_folder_edit_text g)]
      /\ Path_is_dir (strip (merge_folder_edit_text g)) = Some true).
Proof.
  intro Hready. pose proof Hready as [Hscript [Hidle [Hpaths Hmeta]]].
  split; [|split].
  - now apply start_process_ready.
  - intro Hmode. destruct Hpaths as [[_ [Hne Hfile]] | [Hm _]]; [|lia].
    rewrite build_args_download by now rewrite Hmode.
    apply nonempty_true in Hne. rewrite Hne. cbn [app].
    eexists. split; [reflexivity | exact Hfile].
  - intro Hmode. destruct Hpaths as [[Hm _] | [_ [Hne Hdir]]]; [lia|].
    rewrite build_args_merge by now rewrite Hmode.
    apply nonempty_true in Hne. rewrite Hne. split; [reflexivity | exact Hdir].
Qed.

(** A second start right after one that spawned a child is refused: it
    shows the "Already running" message, sends nothing to a process and
    leaves the handle of the first child in place. *)
Theorem start_twice_rejected (g : gui) :
  start_ready g ->
  exists g1,
    _start_process g = Returned g1
    /\ _start_process g1
       = Returned
           (emit_all (start_warning g
                      ++ [QMessageBox_show Warning (lit "Already running")
                            (lit "A process is already running.")]) g1)
    /\ existsb is_process_call
         (start_warning g
          ++ [QMessageBox_show Warning (lit "Already running")
                (lit "A process is already running.")]) = false
    /\ process (window_after (_start_process g1)) = Some Starting.
Proof.
  intro Hready. pose proof Hready as [Hscript [Hidle [Hpaths Hmeta]]].
  pose proof (start_process_ready g Hready) as Hfirst.
  set (g1 := write_process (Some Starting)
               (emit_all (start_warning g ++ spawn_calls g) g)) in *.
  assert (Hsame : same_form g g1).
  { unfold g1. eapply same_form_trans;
      [apply same_form_emit_all | apply same_form_write_process]. }
  assert (Hp : process g1 = Some Starting) by reflexivity.
  assert (Hsecond : _start_process g1
                    = Returned
                        (emit_all
                           (start_warning g
                            ++ [QMessageBox_show Warning
                                  (lit "Already running")
                                  (lit "A process is already running.")])
                           g1)).
  { pose proof (start_warning_same_form g g1 Hsame) as Hw.
    pose proof (metadata_query_same_form g g1 Hsame Hmeta) as Hmeta1.
    destruct Hsame as [Hm [Hh [_ [Hf _]]]].
    rewrite (start_process_checked g1 Hscript)
      by (try exact Hmeta1; rewrite Hm, Hh, Hf; exact Hpaths).
    rewrite Hw.
    rewrite start_process_spawn_active.
    - now destruct (start_warning_cases g) as [-> | ->].
    - unfold process_active. now rewrite process_emit_all, Hp. }
  exists g1. split; [exact Hfirst|]. split; [exact Hsecond|]. split.
  - destruct (start_warning_cases g) as [-> | ->]; reflexivity.
  - rewrite Hsecond. cbn [window_after]. now rewrite process_emit_all.
Qed.

(** ** Facts about the output handler *)

Lemma progress_report_progress (current total : Z) :
  forallb is_progress_call (progress_report current total) = true.
Proof. reflexivity. Qed.

(** Without a process, or on an empty chunk, the output handler does
    nothing.  Otherwise it appends the chunk to the log, as it came and
    once, and then calls only the progress bar and the status label, up to
    the point where it returns or raises; it never touches the form or the
    process handle.  It returns when the markers of the chunk are within
    the limits of the interpreter and of the progress bar. *)
Theorem process_output_logs_then_reports (data : str) (g : gui) :
  exists new,
    window_after (_handle_process_output data g) = emit_all new g
    /\ (process g = None \/ data = [] ->
        new = [] /\ _handle_process_output data g = Returned g)
    /\ (process g <> None -> data <> [] ->
        exists reports,
          new = log_output_insertText data :: reports
          /\ forallb is_progress_call reports = true)
    /\ (lines_within_limits data ->
        _handle_process_output data g = Returned (emit_all new g)).
Proof using Type todecimal_ascii todecimal_digit.
  unfold _handle_process_output.
  destruct (process g) as [st|] eqn:Hp.
  - destruct data as [|c data].
    + exists []. split; [reflexivity|]. split; [now split|].
      split; [congruence | reflexivity].
    + cbn [nonempty negb].
      destruct (output_lines_shape (splitlines (c :: data))
                  (_append_log (c :: data) g)) as [reports [Hfold Hrep]].
      exists (log_output_insertText (c :: data) :: reports).
      split; [exact Hfold|]. split; [|split].
      * intros [H | H]; discriminate.
      * intros _ _. now exists reports.
      * intro Hlim.
        destruct (output_lines_reports (splitlines (c :: data)) Hlim
                    (_append_log (c :: data) g)) as [new [Hrun _]].
        rewrite Hrun in Hfold |- *. cbn [window_after] in Hfold.
        now rewrite Hfold.
  - exists []. split; [reflexivity|]. split; [now split|].
    split; [congruence | reflexivity].
Qed.

(** The values [int] reads from a marker are never negative, and stay
    below the power of ten given by the number of digits written.  A
    report that the handler has made carries a current value and a total
    from 0 to 2147483647. *)
Theorem progress_values_bounded (line first second : str) (g : gui) :
  progress_re_search line = Some (first, second) ->
  (forall current,
      int first = Some current ->
      0 <= current < 10 ^ Z.of_nat (List.length first))
  /\ (forall total,
        int second = Some total ->
        0 <= total < 10 ^ Z.of_nat (List.length second))
  /\ (forall g',
        _maybe_update_progress line g = Returned g' ->
        exists current total,
          int first = Some current /\ int second = Some total
          /\ 0 <= current <= 2147483647 /\ 0 <= total <= 2147483647
          /\ g' = emit_all (progress_report current total) g).
Proof using Type todecimal_digit.
  intro Hs.
  assert (Hint : forall s v, int s = Some v ->
                             0 <= v < 10 ^ Z.of_nat (List.length s)).
  { intros s v H. apply int_inv in H. destruct H as [_ [_ H]].
    apply int_from_bounds in H; lia. }
  split; [now apply Hint|]. split; [now apply Hint|].
  intros g'. unfold _maybe_update_progress, progress_setRange,
               progress_setValue.
  rewrite Hs.
  destruct (int first) as [current|] eqn:Hc; [|discriminate].
  destruct (int second) as [total|] eqn:Ht; [|discriminate].
  change (fits_int 0) with true. cbn [andb].
  destruct (fits_int total) eqn:Ft; cbn [and_next]; [|discriminate].
  destruct (fits_int current) eqn:Fc; cbn [and_next]; [|discriminate].
  intro H. injection H as <-.
  apply fits_int_inv in Ft, Fc.
  apply Hint in Hc, Ht.
  exists current, total.
  split; [reflexivity|]. split; [reflexivity|].
  split; [lia|]. split; [lia | reflexivity].
Qed.

(** ** Facts about what the window shows *)

Lemma last_preview_from_app (cs new : list call) :
  forall shown,
    last_preview_from shown (cs ++ new)
    = last_preview_from (last_preview_from shown cs) new.
Proof.
  induction cs as [|c cs IH]; intro shown; [reflexivity|].
  destruct c; cbn; apply IH.
Qed.

Lemma last_preview_from_quiet (new : list call) :
  forallb is_quiet_call new = true ->
  forall shown, last_preview_from shown new = shown.
Proof.
  induction new as [|c new IH]; intros H shown; [reflexivity|].
  cbn in H. apply andb_true_iff in H. destruct H as [Hc Hnew].
  destruct c; try discriminate; cbn; now apply IH.
Qed.

Lemma last_visible_from_app (grp : groupbox) (cs new : list call) :
  forall shown,
    last_visible_from grp shown (cs ++ new)
    = last_visible_from grp (last_visible_from grp shown cs) new.
Proof.
  induction cs as [|c cs IH]; intro shown; [reflexivity|].
  destruct c; cbn; apply IH.
Qed.

Lemma last_visible_from_others (grp : groupbox) (new : list call) :
  forallb (fun c => is_quiet_call c || is_preview_call c) new = true ->
  forall shown, last_visible_from grp shown new = shown.
Proof.
  induction new as [|c new IH]; intros H shown; [reflexivity|].
  cbn in H. apply andb_true_iff in H. destruct H as [Hc Hnew].
  destruct c; try discriminate; cbn; now apply IH.
Qed.

Lemma quiet_others (new : list call) :
  forallb is_quiet_call new = true ->
  forallb (fun c => is_quiet_call c || is_preview_call c) new = true.
Proof.
  rewrite !forallb_forall. intros H c Hc. now rewrite (H c Hc).
Qed.

Lemma preview_others (new : list call) :
  forallb is_preview_call new = true ->
  forallb (fun c => is_quiet_call c || is_preview_call c) new = true.
Proof.
  rewrite !forallb_forall. intros H c Hc. rewrite (H c Hc).
  apply orb_true_r.
Qed.

Lemma checks_carry_over (g g' : gui) :
  (forall cb, isChecked g' cb = isChecked g cb) ->
  defer_video_overlays_isEnabled g' = defer_video_overlays_isEnabled g ->
  exclusions_hold g -> defer_gated g ->
  exclusions_hold g' /\ defer_gated g'.
Proof.
  intros Hc Hen He Hg. split.
  - unfold exclusions_hold, count_checked, run_mode_boxes,
      media_filter_boxes in *.
    cbn [filter] in *. now rewrite !Hc.
  - unfold defer_gated in *. now rewrite Hen, !Hc.
Qed.

(** *** Quiet steps *)

Lemma quiet_step_refl (g : gui) : quiet_step g g.
Proof.
  split; [apply same_form_refl|]. exists []. now rewrite app_nil_r.
Qed.

Lemma quiet_step_trans (g1 g2 g3 : gui) :
  quiet_step g1 g2 -> quiet_step g2 g3 -> quiet_step g1 g3.
Proof.
  intros [S1 [n1 [C1 Q1]]] [S2 [n2 [C2 Q2]]]. split.
  - eapply same_form_trans; eassumption.
  - exists (n1 ++ n2). split.
    + now rewrite C2, C1, app_assoc.
    + now rewrite forallb_app, Q1, Q2.
Qed.

Lemma quiet_step_emit (c : call) (g g1 : gui) :
  is_quiet_call c = true -> quiet_step g g1 -> quiet_step g (emit c g1).
Proof.
  intros Hc H. eapply quiet_step_trans; [exact H|].
  split; [apply same_form_emit|]. exists [c]. split; [reflexivity|].
  cbn. now rewrite Hc.
Qed.

Lemma quiet_step_write_process (p : option ProcessState) (g g1 : gui) :
  quiet_step g g1 -> quiet_step g (write_process p g1).
Proof.
  intro H. eapply quiet_step_trans; [exact H|].
  split; [apply same_form_write_process|]. exists [].
  now rewrite app_nil_r.
Qed.

Lemma quiet_step_emit_all (new : list call) (g : gui) :
  forallb is_quiet_call new = true -> quiet_step g (emit_all new g).
Proof.
  intro H. split; [apply same_form_emit_all|].
  exists new. split; [apply calls_emit_all | exact H].
Qed.

Ltac quiet_calls :=
  repeat first [ apply quiet_step_refl
               | apply quiet_step_write_process
               | apply quiet_step_emit; [reflexivity|] ].

Lemma start_process_spawn_quiet (g : gui) :
  quiet_step g (_start_process_spawn g).
Proof.
  unfold _start_process_spawn, QMessageBox_warning, _append_log.
  destruct (process_active g); cbv zeta; quiet_calls.
Qed.

Lemma start_process_quiet (g : gui) :
  quiet_step g (window_after (_start_process g)).
Proof.
  unfold _start_process, QMessageBox_critical, QMessageBox_warning.
  destruct (Path_exists script_path) as [[|]|]; cbn [window_after];
    [| quiet_calls | quiet_calls].
  cbv zeta. destruct (mode_combo_currentIndex g =? 0).
  - destruct (nonempty (strip (html_path_edit_text g)));
      cbn [negb window_after]; [|quiet_calls].
    destruct (Path_exists (strip (html_path_edit_text g))) as [[|]|];
      cbn [window_after]; [| quiet_calls | quiet_calls].
    destruct (isChecked g resume_checkbox
              || isChecked g retry_failed_checkbox);
      [|apply start_process_spawn_quiet].
    match goal with
    | |- context [match ?q with Some _ => _ | None => _ end] =>
        destruct q as [[|]|]
    end; cbn [window_after].
    + apply start_process_spawn_quiet.
    + eapply quiet_step_trans; [|apply start_process_spawn_quiet].
      unfold _append_log. quiet_calls.
    + quiet_calls.
  - destruct (nonempty (strip (merge_folder_edit_text g)));
      cbn [negb window_after]; [|quiet_calls].
    destruct (Path_is_dir (strip (merge_folder_edit_text g))) as [[|]|];
      cbn [window_after]; [| quiet_calls | quiet_calls].
    apply start_process_spawn_quiet.
Qed.

Lemma stop_process_quiet (waitForFinished : Z -> bool) (g : gui) :
  quiet_step g (_stop_process waitForFinished g).
Proof.
  unfold _stop_process, _append_log.
  destruct (process g) as [[| |]|]; cbv zeta;
    try destruct (waitForFinished 2000); cbn [negb]; quiet_calls.
Qed.

Lemma handle_process_finished_quiet (exit_code : Z) (g : gui) :
  quiet_step g (_handle_process_finished exit_code g).
Proof.
  unfold _handle_process_finished, _append_log. cbv zeta. quiet_calls.
Qed.

Lemma child_state_changed_quiet (st : ProcessState) (g : gui) :
  quiet_step g (child_state_changed st g).
Proof.
  unfold child_state_changed. destruct (process g); quiet_calls.
Qed.

Lemma progress_quiet (new : list call) :
  forallb is_progress_call new = true -> forallb is_quiet_call new = true.
Proof.
  rewrite !forallb_forall. intros H c Hc. specialize (H c Hc).
  now destruct c.
Qed.

Lemma handle_process_output_quiet (data : str) (g : gui) :
  quiet_step g (window_after (_handle_process_output data g)).
Proof.
  unfold _handle_process_output.
  destruct (process g) as [st|]; [|quiet_calls].
  destruct (nonempty data); cbn [negb]; [|quiet_calls].
  destruct (output_lines_shape (splitlines data) (_append_log data g))
    as [reports [Hfold Hrep]].
  rewrite Hfold.
  apply quiet_step_trans with (g2 := _append_log data g).
  - unfold _append_log. quiet_calls.
  - apply quiet_step_emit_all. now apply progress_quiet.
Qed.

Lemma returned_window (o : outcome) (g' : gui) :
  returned o = Some g' -> window_after o = g'.
Proof. destruct o; cbn; congruence. Qed.

(** *** Handlers that return *)



Lemma window_ok_quiet (g g' : gui) :
  window_ok g -> quiet_step g g' -> window_ok g'.
Proof.
  intros [He [Hg [Hm [Ht [Hp Hv]]]]] [Hsame [new [Hcalls Hq]]].
  pose proof (command_preview_text_same_form g g' Hsame) as Htext.
  destruct Hsame as [Sm [_ [_ [_ [Sc [Sen St]]]]]].
  destruct (checks_carry_over g g' Sc Sen He Hg) as [He' Hg'].
  split; [exact He'|]. split; [exact Hg'|].
  split; [now rewrite Sm|]. split; [now rewrite St|]. split.
  - unfold preview_shown in *.
    rewrite Hcalls, last_preview_from_app, Hp, Htext.
    now apply last_preview_from_quiet.
  - intro grp. unfold group_visible in *.
    rewrite Hcalls, last_visible_from_app, Hv, Sm.
    apply last_visible_from_others. now apply quiet_others.
Qed.

(** *** Steps that redraw the preview *)

Lemma last_preview_from_previews (new : list call) (shown : option str) :
  forallb is_preview_call new = true -> new <> [] ->
  last_preview_from shown new = last_preview_from None new.
Proof.
  destruct new as [|c new]; [congruence|]. intros H _.
  cbn in H. apply andb_true_iff in H. destruct H as [Hc _].
  now destruct c.
Qed.

Lemma window_ok_refresh (g G : gui) :
  window_ok g ->
  (forall cb, isChecked G cb = isChecked g cb) ->
  defer_video_overlays_isEnabled G = defer_video_overlays_isEnabled g ->
  mode_combo_currentIndex G = 0 \/ mode_combo_currentIndex G = 1 ->
  1 <= threads_spin_value G <= 16 ->
  (forall grp,
      group_visible G grp
      = Some (belongs_to_mode (mode_combo_currentIndex G) grp)) ->
  window_ok (_update_command_preview G).
Proof.
  intros [He [Hg _]] Hc Hen Hm Ht Hv.
  destruct (checks_carry_over g (_update_command_preview G) Hc Hen He Hg)
    as [He' Hg'].
  split; [exact He'|]. split; [exact Hg'|].
  split; [exact Hm|]. split; [exact Ht|]. split.
  - unfold preview_shown, _update_command_preview.
    change (calls (emit (command_preview_setPlainText (command_preview_text G))
                     G))
      with (calls G ++ [command_preview_setPlainText (command_preview_text G)]).
    rewrite last_preview_from_app. cbn [last_preview_from]. f_equal.
    all: symmetry; apply command_preview_text_same_form, same_form_emit.
  - intro grp. unfold group_visible, _update_command_preview.
    change (calls (emit (command_preview_setPlainText (command_preview_text G))
                     G))
      with (calls G ++ [command_preview_setPlainText (command_preview_text G)]).
    rewrite last_visible_from_app. cbn [last_visible_from]. apply Hv.
Qed.

Lemma setText_ok (le : line_edit) (s : str) (g : gui) :
  window_ok g -> window_ok (setText le s g).
Proof.
  intro H. unfold setText. destruct (str_eqb (text g le) s); [exact H|].
  pose proof H as [He [Hg [Hm [Ht [Hp Hv]]]]].
  apply (window_ok_refresh g).
  - exact H.
  - intro cb. destruct le; reflexivity.
  - destruct le; reflexivity.
  - destruct le; exact Hm.
  - destruct le; exact Ht.
  - destruct le; exact Hv.
Qed.

Lemma threads_spin_setValue_ok (n : Z) (g : gui) :
  window_ok g -> window_ok (threads_spin_setValue n g).
Proof.
  intro H. unfold threads_spin_setValue. cbv zeta.
  destruct (Z.max 1 (Z.min 16 n) =? threads_spin_value g); [exact H|].
  pose proof H as [He [Hg [Hm [Ht [Hp Hv]]]]].
  apply (window_ok_refresh g).
  - exact H.
  - reflexivity.
  - reflexivity.
  - exact Hm.
  - cbn. lia.
  - exact Hv.
Qed.

Lemma update_mode_ui_calls (g : gui) :
  _update_mode_ui g
  = emit_all
      [group_setVisible download_group (mode_combo_currentIndex g =? 0);
       group_setVisible run_mode_group (mode_combo_currentIndex g =? 0);
       group_setVisible filter_group (mode_combo_currentIndex g =? 0);
       group_setVisible overlay_group (mode_combo_currentIndex g =? 0);
       group_setVisible naming_group (mode_combo_currentIndex g =? 0);
       group_setVisible extra_group (mode_combo_currentIndex g =? 0);
       group_setVisible merge_group
         (negb (mode_combo_currentIndex g =? 0))] g.
Proof. reflexivity. Qed.

(** After [_update_mode_ui] each group is shown exactly if it belongs to
    the current mode. *)
Lemma update_mode_ui_visible (g : gui) (grp : groupbox) :
  group_visible (_update_mode_ui g) grp
  = Some (belongs_to_mode (mode_combo_currentIndex g) grp).
Proof.
  unfold group_visible. rewrite update_mode_ui_calls, calls_emit_all.
  rewrite last_visible_from_app. now destruct grp.
Qed.

Lemma mode_combo_select_ok (entry : mode_entry) (g : gui) :
  window_ok g -> window_ok (mode_combo_select entry g).
Proof.
  intro H. unfold mode_combo_select.
  destruct (index_of entry =? mode_combo_currentIndex g); [exact H|].
  pose proof H as [He [Hg [Hm [Ht [Hp Hv]]]]].
  apply (window_ok_refresh g).
  - exact H.
  - reflexivity.
  - reflexivity.
  - destruct entry; [left | right]; reflexivity.
  - exact Ht.
  - intro grp. rewrite update_mode_ui_visible. reflexivity.
Qed.

(** *** Clicks *)

Ltac forget_environment :=
  clear todecimal_ascii todecimal_digit todecimal root_dir
        Path_exists Path_is_dir Path_joinpath.

(** A click leaves the texts, the mode, the thread count and the process
    alone; it either changes nothing at all or redraws the preview, last
    with the command of the form it leaves. *)
Lemma click_frame (n : nat) (cb : checkbox) (g : gui) :
  exists g' new,
    click (S (S n)) cb g = Some g'
    /\ mode_combo_currentIndex g' = mode_combo_currentIndex g
    /\ threads_spin_value g' = threads_spin_value g
    /\ calls g' = calls g ++ new
    /\ forallb is_preview_call new = true
    /\ (new = [] -> g' = g)
    /\ (new <> [] ->
        last_preview_from None new = Some (command_preview_text g')).
Proof.
  forget_environment.
  unfold click. destruct g as [m ht ot mt chk en thr pr cs].
  destruct cb; try destruct en; run_handlers.
  all: eexists; eexists; (split; [reflexivity|]); cbn.
  all: split; [reflexivity|]; split; [reflexivity|].
  all: split;
    [first [ symmetry; apply app_nil_r
           | rewrite <- ?app_assoc; reflexivity ]|].
  all: split; [reflexivity|].
  all: split; [first [reflexivity | discriminate]|].
  all: first [ intro Hne; exfalso; apply Hne; exact eq_refl
             | intros _; cbn [last_preview_from app]; apply (f_equal Some);
               apply command_preview_text_fields; cbn;
               first [reflexivity | intro; reflexivity] ].
Qed.

Lemma click_keeps_gate (n : nat) (cb : checkbox) (g : gui) :
  defer_gated g ->
  exists g', click (S (S n)) cb g = Some g' /\ defer_gated g'.
Proof.
  forget_environment.
  unfold defer_gated, click. destruct g as [m ht ot mt chk en thr pr cs].
  cbn. intros [Hen Hdefer].
  destruct (chk merge_overlays_checkbox) eqn:?,
    (chk defer_video_overlays_checkbox) eqn:?;
    try (specialize (Hdefer eq_refl); discriminate); subst en.
  all: destruct cb; run_handlers.
  all: eexists; (split; [reflexivity|]); cbn; use_known_states.
  all: split; [reflexivity | congruence].
Qed.

Lemma click_ok (n : nat) (cb : checkbox) (g : gui) :
  window_ok g ->
  exists g', click (S (S n)) cb g = Some g' /\ window_ok g'.
Proof.
  intros [He [Hg [Hm [Ht [Hp Hv]]]]].
  destruct (click_frame n cb g)
    as [g' [new [Hclick [Fm [Ft [Fcalls [Fnew [Fnone Fsome]]]]]]]].
  destruct (click_preserves_exclusions n cb g He) as [g1 [H1 He']].
  destruct (click_keeps_gate n cb g Hg) as [g2 [H2 Hg']].
  rewrite Hclick in H1, H2. injection H1 as <-. injection H2 as <-.
  exists g'. split; [exact Hclick|].
  split; [exact He'|]. split; [exact Hg'|].
  split; [now rewrite Fm|]. split; [now rewrite Ft|].
  destruct new as [|c new].
  - rewrite (Fnone eq_refl). now split.
  - split.
    + unfold preview_shown. rewrite Fcalls, last_preview_from_app.
      rewrite last_preview_from_previews by (exact Fnew || discriminate).
      apply Fsome. discriminate.
    + intro grp. unfold group_visible in *.
      rewrite Fcalls, last_visible_from_app, Hv, Fm.
      apply last_visible_from_others. now apply preview_others.
Qed.

(** *** Every event keeps the window consistent *)

Lemma init_ok (n : nat) :
  exists g0, DownloaderGUI_init (S (S n)) = Some g0 /\ window_ok g0.
Proof.
  eexists. split; [reflexivity|].
  split; [split; cbn; lia|]. split; [split; [reflexivity | discriminate]|].
  split; [now left|]. split; [cbn; lia|]. split.
  - unfold preview_shown. cbn. apply (f_equal Some).
    apply command_preview_text_fields; cbn;
      first [reflexivity | intro; reflexivity].
  - intro grp. unfold group_visible. cbn. now destruct grp.
Qed.

Lemma handle_ok (n : nat) (e : event) (g g' : gui) :
  window_ok g -> handle (S (S n)) e g = Some g' -> window_ok g'.
Proof.
  intros H Hrun. destruct e; cbn [handle] in Hrun.
  - destruct (click_ok n cb g H) as [g1 [H1 Hok]].
    rewrite H1 in Hrun. now injection Hrun as <-.
  - injection Hrun as <-. now apply setText_ok.
  - injection Hrun as <-. unfold _choose_html_file.
    destruct (nonempty file_path); [now apply setText_ok | exact H].
  - injection Hrun as <-. unfold _choose_output_folder.
    destruct (nonempty folder); [now apply setText_ok | exact H].
  - injection Hrun as <-. unfold _choose_merge_folder.
    destruct (nonempty folder); [now apply setText_ok | exact H].
  - injection Hrun as <-. now apply mode_combo_select_ok.
  - injection Hrun as <-. now apply threads_spin_setValue_ok.
  - apply returned_window in Hrun. subst g'.
    apply (window_ok_quiet g); [exact H | apply start_process_quiet].
  - injection Hrun as <-.
    apply (window_ok_quiet g); [exact H | apply stop_process_quiet].
  - apply returned_window in Hrun. subst g'.
    apply (window_ok_quiet g); [exact H | apply handle_process_output_quiet].
  - injection Hrun as <-.
    apply (window_ok_quiet g); [exact H | apply handle_process_finished_quiet].
  - injection Hrun as <-.
    apply (window_ok_quiet g); [exact H | apply child_state_changed_quiet].
Qed.

Lemma handle_all_ok (n : nat) (events : list event) :
  forall g g',
    window_ok g -> handle_all (S (S n)) events g = Some g' -> window_ok g'.
Proof.
  induction events as [|e rest IH]; intros g g' H Hrun.
  - cbn [handle_all] in Hrun. now injection Hrun as <-.
  - cbn [handle_all] in Hrun.
    destruct (handle (S (S n)) e g) as [g1|] eqn:H1; [|discriminate].
    unfold and_then in Hrun.
    apply (IH g1 g'); [|exact Hrun]. exact (handle_ok n e g g1 H H1).
Qed.

Lemma reachable_ok (g : gui) : reachable g -> window_ok g.
Proof.
  intros [n [events Hrun]].
  destruct (init_ok n) as [g0 [H0 Hok0]].
  rewrite H0 in Hrun. unfold and_then in Hrun.
  exact (handle_all_ok n events g0 g Hok0 Hrun).
Qed.


(** ** Facts about every window of a session *)


(** In every window of a session the preview shows the command of the
    form as it stands. *)
Theorem preview_in_sync (g : gui) :
  reachable g -> preview_shown g = Some (command_preview_text g).
Proof using Type todecimal_ascii.
  intro H. apply reachable_ok in H. apply H.
Qed.

(** In every window of a session the mode is one of the two entries, and
    each group box is shown exactly if it belongs to that mode: the merge
    group in merge mode, the six others in download mode. *)
Theorem groups_follow_mode (g : gui) (grp : groupbox) :
  reachable g ->
  (mode_combo_currentIndex g = 0 \/ mode_combo_currentIndex g = 1)
  /\ group_visible g grp
     = Some (belongs_to_mode (mode_combo_currentIndex g) grp).
Proof using Type todecimal_ascii.
  intro H. apply reachable_ok in H.
  destruct H as [_ [_ [Hm [_ [_ Hv]]]]]. split; [exact Hm | apply Hv].
Qed.

Lemma flag_names_distinct : NoDup (map snd download_flags).
Proof.
  unfold download_flags. cbn [map snd].
  repeat (constructor;
          [cbn [In]; intro H;
           repeat (destruct H as [H | H]; [vm_compute in H; discriminate|]);
           exact H|]).
  constructor.
Qed.

Lemma flag_of_name (cb cb' : checkbox) (name : str)
  (entries : list (checkbox * str)) :
  NoDup (map snd entries) ->
  In (cb, name) entries -> In (cb', name) entries -> cb = cb'.
Proof.
  clear todecimal_ascii todecimal_digit todecimal sys_executable script_path
        root_dir Path_exists Path_is_dir Path_joinpath.
  induction entries as [|[c s] entries IH]; cbn; [tauto|].
  intros Hnd [H1 | H1] [H2 | H2]; inversion Hnd; subst.
  - congruence.
  - injection H1 as -> ->. exfalso.
    match goal with Hn : ~ In _ _ |- _ => apply Hn end.
    apply in_map_iff. now exists (cb', name).
  - injection H2 as -> ->. exfalso.
    match goal with Hn : ~ In _ _ |- _ => apply Hn end.
    apply in_map_iff. now exists (cb, name).
  - now apply IH.
Qed.

(** A flag is in the command's flags exactly if its box is checked. *)
Lemma enabled_flag_checked (g : gui) (cb : checkbox) (name : str) :
  In (cb, name) download_flags ->
  (In name (enabled_flags g) <-> isChecked g cb = true).
Proof.
  clear todecimal_ascii todecimal_digit todecimal sys_executable script_path
        root_dir Path_exists Path_is_dir Path_joinpath.
  intro Hentry. unfold enabled_flags. rewrite in_map_iff. split.
  - intros [[cb' name'] [Hname Hin]]. cbn in Hname. subst name'.
    apply filter_In in Hin. destruct Hin as [Hin Hchecked]. cbn in Hchecked.
    now rewrite (flag_of_name cb cb' name download_flags
                   flag_names_distinct Hentry Hin).
  - intro Hchecked. exists (cb, name). split; [reflexivity|].
    apply filter_In. now split.
Qed.

(** In every window of a session defer-video-overlays is enabled exactly
    when merge-overlays is checked and is checked only then, so the
    command never carries [--defer-video-overlays] without
    [--merge-overlays]. *)
Theorem defer_needs_merge (g : gui) :
  reachable g ->
  defer_video_overlays_isEnabled g = isChecked g merge_overlays_checkbox
  /\ (isChecked g defer_video_overlays_checkbox = true ->
      isChecked g merge_overlays_checkbox = true)
  /\ (In (lit "--defer-video-overlays") (enabled_flags g) ->
      In (lit "--merge-overlays") (enabled_flags g)).
Proof using Type todecimal_ascii.
  intro H. apply reachable_ok in H. destruct H as [_ [[Hen Hdefer] _]].
  split; [exact Hen|]. split; [exact Hdefer|].
  intro Hflag.
  apply (enabled_flag_checked g defer_video_overlays_checkbox) in Hflag;
    [|cbn; auto 12].
  apply (enabled_flag_checked g merge_overlays_checkbox); [cbn; auto 12|].
  now apply Hdefer.
Qed.

(** What is previewed is what is run: when a start in a window of a
    session passes its checks, the program and arguments it hands to the
    child are, rendered and joined by spaces, the text the preview shows. *)
Theorem start_runs_previewed_command (g : gui) :
  reachable g -> start_ready g ->
  exists arguments,
    In (process_start sys_executable arguments)
       (calls (window_after (_start_process g)))
    /\ preview_shown g
       = Some (join (lit " ")
                 (map _display_arg (sys_executable :: arguments))).
Proof using Type todecimal_ascii.
  intros Hreach Hready.
  exists ([lit "-u"; script_path] ++ _build_args g). split.
  - rewrite (start_process_ready g Hready). cbn [window_after].
    change (calls (write_process (Some Starting)
                     (emit_all (start_warning g ++ spawn_calls g) g)))
      with (calls (emit_all (start_warning g ++ spawn_calls g) g)).
    rewrite calls_emit_all. apply in_or_app. right.
    apply in_or_app. right. unfold spawn_calls. cbn [In]. auto 12.
  - apply reachable_ok in Hreach.
    destruct Hreach as [_ [_ [_ [_ [Hp _]]]]]. exact Hp.
Qed.

End Bridge.

(** * The program on concrete inputs *)

Example strip_blanks :
  strip (lit "  a b  ") = lit "a b" /\ strip (lit "   ") = []
  /\ strip ([0xA0%N; 0x2003%N] ++ lit "x" ++ [0x3000%N]) = lit "x".
Proof. repeat split. Qed.

Example splitlines_boundaries :
  splitlines (lit "a" ++ [13%N; 10%N] ++ lit "b" ++ nl ++ nl ++ lit "c")
  = [lit "a"; lit "b"; []; lit "c"]
  /\ splitlines (lit "a" ++ nl) = [lit "a"]
  /\ splitlines [] = [].
Proof. repeat split. Qed.

Example str_of_int_decimal :
  str_of_int 16 = lit "16" /\ str_of_int 0 = lit "0"
  /\ str_of_int (-7) = lit "-7" /\ str_of_int 100 = lit "100".
Proof. repeat split. Qed.

Example join_spaces :
  join (lit " ") [lit "a"; lit "b"; lit "c"] = lit "a b c"
  /\ join (lit " ") [lit "a"] = lit "a" /\ join (lit " ") [] = [].
Proof. repeat split. Qed.

(** The leftmost marker wins, and the digit runs are taken whole. *)
Example search_leftmost :
  progress_re_search ascii_todecimal (lit "x[1/2] [3/4]")
  = Some (lit "1", lit "2")
  /\ progress_re_search ascii_todecimal (lit "[12/345]")
     = Some (lit "12", lit "345")
  /\ progress_re_search ascii_todecimal (lit "[/3] [4/] [a/b] 5/6") = None
  /\ progress_re_search ascii_todecimal (lit "[[7/8]]")
     = Some (lit "7", lit "8").
Proof. repeat split. Qed.

Lemma merge_mode_args_witness :
  mode_combo_currentIndex sample_merge_form = 1
  /\ _build_args sample_merge_form = [lit "--merge-existing"; lit "/data"].
Proof.
  split; [reflexivity|].
  destruct (merge_mode_args sample_merge_form eq_refl) as [H _].
  apply H. vm_compute. discriminate.
Defined.

Lemma download_mode_args_witness :
  mode_combo_currentIndex sample_download_form = 0
  /\ _build_args sample_download_form
     = [lit "/data/memories_history.html"; lit "-o"; lit "memories";
        lit "--resume"; lit "--videos-only"; lit "--threads"; lit "4"].
Proof.
  split; [reflexivity|].
  rewrite (download_mode_args sample_download_form eq_refl).
  vm_compute. reflexivity.
Defined.

(** The window the constructor builds satisfies both exclusions, and has
    defer-video-overlays disabled. *)
Lemma initial_window_exclusive :
  exists g0,
    DownloaderGUI_init sample_exe sample_script 2 = Some g0
    /\ exclusions_hold g0
    /\ defer_video_overlays_isEnabled g0 = false.
Proof.
  eexists. split; [vm_compute; reflexivity|].
  split; [split; vm_compute; lia | reflexivity].
Qed.

Lemma toggles_keep_exclusions_witness :
  exclusions_hold blank_form
  /\ exists g',
       clicks sample_exe sample_script 2
         [resume_checkbox; videos_only_checkbox; test_checkbox;
          pictures_only_checkbox; retry_failed_checkbox; test_checkbox]
         blank_form = Some g'
       /\ exclusions_hold g'.
Proof.
  assert (H : exclusions_hold blank_form) by (split; vm_compute; lia).
  split; [exact H|].
  exact (proj1 (toggles_keep_exclusions sample_exe sample_script 0
                  [resume_checkbox; videos_only_checkbox; test_checkbox;
                   pictures_only_checkbox; retry_failed_checkbox;
                   test_checkbox] blank_form H)).
Defined.

Lemma merge_overlays_gates_defer_witness :
  isChecked sample_overlay_form merge_overlays_checkbox = true
  /\ exists g1,
       click sample_exe sample_script 2 merge_overlays_checkbox
         sample_overlay_form = Some g1
       /\ isChecked g1 defer_video_overlays_checkbox = false
       /\ defer_video_overlays_isEnabled g1 = false.
Proof.
  split; [reflexivity|].
  destruct (merge_overlays_gates_defer sample_exe sample_script 0
              sample_overlay_form eq_refl)
    as [g1 [H1 [_ [H2 [H3 _]]]]].
  exists g1. auto.
Defined.

Lemma ascii_todecimal_digit (c : char) (d : Z) :
  ascii_todecimal c = Some d -> 0 <= d <= 9.
Proof.
  unfold ascii_todecimal.
  destruct ((48 <=? c) && (c <=? 57))%N eqn:H; [|discriminate].
  apply andb_true_iff in H. destruct H as [H1 H2].
  apply N.leb_le in H1, H2. intro E. injection E as <-. lia.
Qed.

(** The markers of the chunk "[1/2] first\n" are within the limits. *)
Lemma sample_chunk_within_limits :
  lines_within_limits ascii_todecimal (lit "[1/2] first" ++ nl).
Proof.
  intros line pre first second Hin Hleft.
  apply (leftmost_marker_search ascii_todecimal (fun c _ => eq_refl))
    in Hleft.
  vm_compute in Hin. destruct Hin as [<- | []].
  vm_compute in Hleft. injection Hleft as <- <-.
  split;
    (split;
     [vm_compute; discriminate
     | intros v H; vm_compute in H; injection H as <-; lia]).
Qed.

Lemma progress_marker_updates_witness :
  (forall c, (c < 128)%N -> ascii_todecimal c = ascii_todecimal c)
  /\ _handle_process_output ascii_todecimal
       (lit "foo" ++ nl ++ lit "[3/10] bar" ++ nl)
       (write_process (Some Running) blank_form)
     = Returned
         (emit_all
            [log_output_insertText
               (lit "foo" ++ nl ++ lit "[3/10] bar" ++ nl);
             progress_bar_setRange 0 10;
             progress_bar_setValue 3;
             status_label_setText (lit "Processing 3 of 10")]
            (write_process (Some Running) blank_form))
  /\ exists new,
       _handle_process_output ascii_todecimal (lit "[1/2] first" ++ nl)
         (write_process (Some Running) blank_form)
       = Returned
           (emit_all
              (log_output_insertText (lit "[1/2] first" ++ nl) :: new)
              (write_process (Some Running) blank_form)).
Proof.
  split; [reflexivity|].
  destruct (progress_marker_updates ascii_todecimal (fun c _ => eq_refl)
              ascii_todecimal_digit)
    as [_ [Hchunk [Hfoo _]]].
  split.
  - apply Hfoo. vm_compute. discriminate.
  - destruct (Hchunk (lit "[1/2] first" ++ nl)
                (write_process (Some Running) blank_form)
                (lit "[1/2] first"))
      as [new [pre [first [second [current [total [before [after [H _]]]]]]]]].
    + vm_compute. discriminate.
    + exact sample_chunk_within_limits.
    + vm_compute. left. reflexivity.
    + exists [], (lit "1"), (lit "2").
      split; [split; [discriminate | repeat constructor]|].
      split; [split; [discriminate | repeat constructor]|].
      now exists (lit " first").
    + now exists new.
Defined.

(** C5 as the specification states it fails: the line "[1/3000000000]"
    holds a marker, but its total is more than the progress bar takes.
    The chunk is logged, [OverflowError] leaves the handler, and no call
    reaches the progress bar or the status label. *)
Lemma progress_marker_counterexample :
  contains_marker ascii_todecimal (lit "[1/3000000000]")
  /\ In (lit "[1/3000000000]") (splitlines (lit "[1/3000000000]" ++ nl))
  /\ _maybe_update_progress ascii_todecimal (lit "[1/3000000000]") blank_form
     = Raised OverflowError blank_form
  /\ _handle_process_output ascii_todecimal (lit "[1/3000000000]" ++ nl)
       (write_process (Some Running) blank_form)
     = Raised OverflowError
         (emit (log_output_insertText (lit "[1/3000000000]" ++ nl))
            (write_process (Some Running) blank_form))
  /\ calls (window_after
              (_handle_process_output ascii_todecimal
                 (lit "[1/3000000000]" ++ nl)
                 (write_process (Some Running) blank_form)))
     = [log_output_insertText (lit "[1/3000000000]" ++ nl)].
Proof.
  split; [|split; [|split; [|split]]].
  - exists [], (lit "1"), (lit "3000000000").
    split; [split; [discriminate | repeat constructor]|].
    split; [split; [discriminate | repeat constructor]|].
    now exists [].
  - vm_compute. left. reflexivity.
  - vm_compute. reflexivity.
  - vm_compute. reflexivity.
  - vm_compute. reflexivity.
Qed.

Lemma progress_values_unvalidated_witness :
  (forall c, (c < 128)%N -> ascii_todecimal c = ascii_todecimal c)
  /\ _maybe_update_progress ascii_todecimal (lit "[5/3]") blank_form
     = Returned
         (emit_all
            [progress_bar_setRange 0 3;
             progress_bar_setValue 5;
             status_label_setText (lit "Processing 5 of 3")] blank_form)
  /\ 0 <= 2147483647 <= 2147483647
  /\ _maybe_update_progress ascii_todecimal
       (lit "[" ++ str_of_int 2147483647 ++ lit "/" ++ str_of_int 0
        ++ lit "]" ++ []) blank_form
     = Returned
         (emit_all
            [progress_bar_setRange 0 0;
             progress_bar_setValue 2147483647;
             status_label_setText
               (lit "Processing " ++ str_of_int 2147483647
                ++ lit " of " ++ str_of_int 0)] blank_form).
Proof.
  split; [reflexivity|].
  destruct (progress_values_unvalidated ascii_todecimal sample_exe
              sample_script sample_root (fun c _ => eq_refl)
              ascii_todecimal_digit)
    as [_ [Hany [_ [H _]]]].
  split; [apply H|]. split; [lia|].
  apply Hany; lia.
Defined.

(** C10 as the specification states it fails: the integers of a matched
    marker are not passed on whatever they are.  For "[2147483648/5]" the
    range (0,5) is requested, and then [OverflowError] leaves the handler:
    no value is requested and the status text is not set.  For a marker
    whose current is written with 4301 digits, [ValueError] leaves the
    handler before any request. *)
Lemma progress_values_counterexample :
  progress_re_search ascii_todecimal (lit "[2147483648/5]")
  = Some (lit "2147483648", lit "5")
  /\ _maybe_update_progress ascii_todecimal (lit "[2147483648/5]") blank_form
     = Raised OverflowError (emit (progress_bar_setRange 0 5) blank_form)
  /\ progress_re_search ascii_todecimal
       (lit "[" ++ repeat 49%N 4301 ++ lit "/5]")
     = Some (repeat 49%N 4301, lit "5")
  /\ _maybe_update_progress ascii_todecimal
       (lit "[" ++ repeat 49%N 4301 ++ lit "/5]") blank_form
     = Raised ValueError blank_form.
Proof.
  split; [vm_compute; reflexivity|].
  split; [vm_compute; reflexivity|].
  split; vm_compute; reflexivity.
Qed.

(** A second start while the first process runs. *)
Lemma start_blocked_witness :
  start_precondition_fails sample_script sample_Path_exists
    sample_Path_is_dir
    (write_process (Some Running) sample_download_form)
  /\ start_queries_answer sample_script sample_Path_exists
       sample_Path_is_dir sample_joinpath
       (write_process (Some Running) sample_download_form)
  /\ calls (window_after
              (_start_process sample_exe sample_script sample_root
                 sample_Path_exists sample_Path_is_dir sample_joinpath
                 (write_process (Some Running) sample_download_form)))
     = [log_output_insertText metadata_warning;
        QMessageBox_show Warning (lit "Already running")
          (lit "A process is already running.")]
  /\ process (window_after
                (_start_process sample_exe sample_script sample_root
                   sample_Path_exists sample_Path_is_dir sample_joinpath
                   (write_process (Some Running) sample_download_form)))
     = Some Running.
Proof.
  assert (H : start_precondition_fails sample_script sample_Path_exists
                sample_Path_is_dir
                (write_process (Some Running) sample_download_form)).
  { right. right. right. exists Running. split; [reflexivity|discriminate]. }
  assert (Q : start_queries_answer sample_script sample_Path_exists
                sample_Path_is_dir sample_joinpath
                (write_process (Some Running) sample_download_form)).
  { exists true. split; [reflexivity|]. intros _ _. exists true.
    split; [reflexivity|]. intros _ _ _. discriminate. }
  split; [exact H|]. split; [exact Q|].
  destruct (proj1 (start_blocked sample_exe sample_script sample_root
                     sample_Path_exists sample_Path_is_dir sample_joinpath _)
              H Q)
    as [warning [i [title [text [_ [_ [_ Hp]]]]]]].
  split; [vm_compute; reflexivity | exact Hp].
Defined.

(** C6 as the specification states it fails: the HTML path is a name of
    300 letters, which does not exist; the operating system refuses the
    name, so the query raises [OSError] and the start ends there, with no
    modal message. *)
Lemma start_blocked_counterexample :
  mode_combo_currentIndex long_name_form = 0
  /\ strip (html_path_edit_text long_name_form) <> []
  /\ sample_exists (strip (html_path_edit_text long_name_form)) = false
  /\ limited_Path_exists sample_script = Some true
  /\ process long_name_form = None
  /\ _start_process sample_exe sample_script sample_root
       limited_Path_exists sample_Path_is_dir sample_joinpath long_name_form
     = Raised OSError long_name_form
  /\ calls long_name_form = [].
Proof.
  split; [reflexivity|]. split; [vm_compute; discriminate|].
  split; [vm_compute; reflexivity|]. split; [vm_compute; reflexivity|].
  split; [reflexivity|]. split; [vm_compute; reflexivity | reflexivity].
Qed.

Lemma start_warns_and_spawns_witness :
  calls (window_after
           (_start_process sample_exe sample_script sample_root
              sample_Path_exists sample_Path_is_dir sample_joinpath
              sample_download_form))
  = log_output_insertText metadata_warning
    :: spawn_calls sample_exe sample_script sample_root sample_download_form.
Proof.
  destruct (start_warns_and_spawns sample_exe sample_script sample_root
              sample_Path_exists sample_Path_is_dir sample_joinpath
              sample_download_form) as [H _].
  - vm_compute. reflexivity.
  - reflexivity.
  - vm_compute. discriminate.
  - vm_compute. reflexivity.
  - intros [st [Hst _]]. discriminate.
  - left. reflexivity.
  - vm_compute. reflexivity.
  - rewrite H. reflexivity.
Defined.

(** A stop on a child that does not exit in time, and on one that does. *)
Lemma stop_terminates_then_kills_witness :
  already_running (write_process (Some Running) blank_form)
  /\ calls (_stop_process (fun _ => false)
              (write_process (Some Running) blank_form))
     = [process_terminate; process_waitForFinished 2000; process_kill;
        log_output_insertText (lit "Process stopped by user." ++ nl)]
  /\ calls (_stop_process (fun _ => true)
              (write_process (Some Running) blank_form))
     = [process_terminate; process_waitForFinished 2000;
        log_output_insertText (lit "Process stopped by user." ++ nl)].
Proof.
  assert (H : already_running (write_process (Some Running) blank_form)).
  { exists Running. split; [reflexivity | discriminate]. }
  split; [exact H|]. split.
  - destruct (proj1 (stop_terminates_then_kills (fun _ => false) _) H)
      as [forced [Heq [Hkill _]]].
    rewrite Heq, (Hkill eq_refl). reflexivity.
  - destruct (proj1 (stop_terminates_then_kills (fun _ => true) _) H)
      as [forced [Heq [_ [Hnone _]]]].
    rewrite Heq, (Hnone eq_refl). reflexivity.
Defined.

Lemma display_arg_and_preview_witness :
  _display_arg (lit "my folder") = dquote ++ lit "my folder" ++ dquote
  /\ _display_arg (lit "--resume") = lit "--resume".
Proof.
  destruct (display_arg_and_preview sample_exe sample_script)
    as [_ [Hquoted [Hplain _]]].
  split.
  - apply Hquoted; [discriminate|]. exists 32%N. split.
    + vm_compute. auto.
    + left. reflexivity.
  - apply Hplain; [discriminate|]. intros c Hc. vm_compute in Hc.
    repeat (destruct Hc as [<- | Hc];
            [repeat split; (reflexivity || discriminate)|]).
    destruct Hc.
Defined.

(** C7 as the specification states it fails: with resume checked and no
    metadata file, but no HTML path typed, the start is blocked; nothing is
    logged and nothing is spawned. *)
Lemma start_warning_counterexample :
  mode_combo_currentIndex sample_resume_without_html = 0
  /\ isChecked sample_resume_without_html resume_checkbox = true
  /\ sample_Path_exists (sample_joinpath
                           (chosen_output_dir sample_resume_without_html)
                           (lit "metadata.json")) = Some false
  /\ _start_process sample_exe sample_script sample_root
       sample_Path_exists sample_Path_is_dir sample_joinpath
       sample_resume_without_html
     = Returned
         (emit (QMessageBox_show Warning (lit "Missing HTML")
                  (lit "Please select memories_history.html."))
            sample_resume_without_html)
  /\ calls (window_after
              (_start_process sample_exe sample_script sample_root
                 sample_Path_exists sample_Path_is_dir sample_joinpath
                 sample_resume_without_html))
     = [QMessageBox_show Warning (lit "Missing HTML")
          (lit "Please select memories_history.html.")]
  /\ ~ In (log_output_insertText metadata_warning)
          (calls (window_after
                    (_start_process sample_exe sample_script sample_root
                       sample_Path_exists sample_Path_is_dir sample_joinpath
                       sample_resume_without_html)))
  /\ existsb is_process_call
       (calls (window_after
                 (_start_process sample_exe sample_script sample_root
                    sample_Path_exists sample_Path_is_dir sample_joinpath
                    sample_resume_without_html))) = false
  /\ process (window_after
                (_start_process sample_exe sample_script sample_root
                   sample_Path_exists sample_Path_is_dir sample_joinpath
                   sample_resume_without_html)) = None.
Proof.
  split; [reflexivity|]. split; [reflexivity|].
  split; [vm_compute; reflexivity|]. split; [vm_compute; reflexivity|].
  split; [vm_compute; reflexivity|]. split.
  - vm_compute. intros [H | []]. discriminate.
  - split; vm_compute; reflexivity.
Qed.

(** ** The further facts on concrete inputs *)

Lemma display_arg_injective_witness :
  _display_arg (lit "my folder") = _display_arg (strip (lit " my folder "))
  /\ lit "my folder" = strip (lit " my folder ").
Proof.
  split; [reflexivity|].
  apply (display_arg_injective (lit "my folder")
           (strip (lit " my folder "))).
  reflexivity.
Defined.

Lemma build_args_trimmed_witness :
  In (lit "/data/memories_history.html") (_build_args sample_download_form)
  /\ trimmed (lit "/data/memories_history.html").
Proof.
  assert (H : In (lit "/data/memories_history.html")
                (_build_args sample_download_form))
    by (vm_compute; left; reflexivity).
  split; [exact H|].
  exact (build_args_trimmed sample_download_form _ H).
Defined.

Lemma sample_download_form_ready :
  start_ready sample_script sample_Path_exists sample_Path_is_dir
    sample_joinpath sample_download_form.
Proof.
  split; [reflexivity|]. split; [|split].
  - intros [st [H _]]. discriminate.
  - left. split; [reflexivity|]. split; [discriminate | reflexivity].
  - intros _ _. discriminate.
Qed.

Lemma start_ready_spawns_witness :
  start_ready sample_script sample_Path_exists sample_Path_is_dir
    sample_joinpath sample_download_form
  /\ process (window_after
                (_start_process sample_exe sample_script sample_root
                   sample_Path_exists sample_Path_is_dir sample_joinpath
                   sample_download_form)) = Some Starting
  /\ exists rest,
       _build_args sample_download_form
       = lit "/data/memories_history.html" :: rest.
Proof.
  split; [exact sample_download_form_ready|].
  destruct (start_ready_spawns sample_exe sample_script sample_root
              sample_Path_exists sample_Path_is_dir sample_joinpath
              sample_download_form sample_download_form_ready)
    as [Hrun [Hdownload _]].
  split.
  - rewrite Hrun. reflexivity.
  - destruct (Hdownload eq_refl) as [rest [Hargs _]]. now exists rest.
Defined.

Lemma start_twice_rejected_witness :
  start_ready sample_script sample_Path_exists sample_Path_is_dir
    sample_joinpath sample_download_form
  /\ exists g1,
       _start_process sample_exe sample_script sample_root
         sample_Path_exists sample_Path_is_dir sample_joinpath
         sample_download_form = Returned g1
       /\ process (window_after
                     (_start_process sample_exe sample_script sample_root
                        sample_Path_exists sample_Path_is_dir
                        sample_joinpath g1)) = Some Starting.
Proof.
  split; [exact sample_download_form_ready|].
  destruct (start_twice_rejected sample_exe sample_script sample_root
              sample_Path_exists sample_Path_is_dir sample_joinpath
              sample_download_form sample_download_form_ready)
    as [g1 [Hfirst [_ [_ Hprocess]]]].
  exists g1. split; [exact Hfirst | exact Hprocess].
Defined.

Lemma process_output_logs_then_reports_witness :
  lines_within_limits ascii_todecimal (lit "[1/2] first" ++ nl)
  /\ exists reports,
       _handle_process_output ascii_todecimal (lit "[1/2] first" ++ nl)
         (write_process (Some Running) blank_form)
       = Returned
           (emit_all
              (log_output_insertText (lit "[1/2] first" ++ nl) :: reports)
              (write_process (Some Running) blank_form))
       /\ forallb is_progress_call reports = true.
Proof.
  split; [exact sample_chunk_within_limits|].
  destruct (process_output_logs_then_reports ascii_todecimal
              (fun c _ => eq_refl) ascii_todecimal_digit
              (lit "[1/2] first" ++ nl)
              (write_process (Some Running) blank_form))
    as [new [_ [_ [Hlog Hrun]]]].
  destruct Hlog as [reports [-> Hreports]].
  - vm_compute. discriminate.
  - vm_compute. discriminate.
  - exists reports. split; [|exact Hreports].
    apply Hrun. exact sample_chunk_within_limits.
Defined.

Lemma progress_values_bounded_witness :
  progress_re_search ascii_todecimal (lit "[5/3]") = Some (lit "5", lit "3")
  /\ exists current total,
       int ascii_todecimal (lit "5") = Some current
       /\ int ascii_todecimal (lit "3") = Some total
       /\ 0 <= current <= 2147483647 /\ 0 <= total <= 2147483647.
Proof.
  split; [reflexivity|].
  destruct (progress_values_bounded ascii_todecimal ascii_todecimal_digit
              (lit "[5/3]") (lit "5") (lit "3") blank_form eq_refl)
    as [_ [_ H]].
  destruct (H _ eq_refl) as [current [total [Hc [Ht [Bc [Bt _]]]]]].
  exists current, total. auto.
Defined.


(** The sample session, run with the least dispatch budget that
    suffices. *)
Local Notation "'sample_session'" :=
  (DownloaderGUI_init sample_exe sample_script 2
   >>= handle_all ascii_todecimal sample_exe sample_script sample_root
         sample_Path_exists sample_Path_is_dir sample_joinpath 2
         sample_events).


Lemma sample_session_reachable (g : gui) :
  sample_session = Some g ->
  reachable ascii_todecimal sample_exe sample_script sample_root
    sample_Path_exists sample_Path_is_dir sample_joinpath g.
Proof. intro H. exists 0%nat, sample_events. exact H. Qed.

Lemma preview_in_sync_witness :
  match sample_session with
  | Some g =>
      preview_shown g
      = Some (command_preview_text sample_exe sample_script g)
  | None => False
  end.
Proof.
  destruct (sample_session)
    as [g|] eqn:E.
  - exact (preview_in_sync ascii_todecimal sample_exe sample_script
             sample_root sample_Path_exists sample_Path_is_dir
             sample_joinpath (fun c _ => eq_refl) g
             (sample_session_reachable g E)).
  - vm_compute in E. discriminate.
Defined.

Lemma groups_follow_mode_witness :
  match sample_session with
  | Some g =>
      group_visible g merge_group
      = Some (belongs_to_mode (mode_combo_currentIndex g) merge_group)
  | None => False
  end.
Proof.
  destruct (sample_session)
    as [g|] eqn:E.
  - exact (proj2 (groups_follow_mode ascii_todecimal sample_exe sample_script
                    sample_root sample_Path_exists sample_Path_is_dir
                    sample_joinpath (fun c _ => eq_refl) g merge_group
                    (sample_session_reachable g E))).
  - vm_compute in E. discriminate.
Defined.

Lemma defer_needs_merge_witness :
  match sample_session with
  | Some g =>
      defer_video_overlays_isEnabled g
      = isChecked g merge_overlays_checkbox
  | None => False
  end.
Proof.
  destruct (sample_session)
    as [g|] eqn:E.
  - exact (proj1 (defer_needs_merge ascii_todecimal sample_exe sample_script
                    sample_root sample_Path_exists sample_Path_is_dir
                    sample_joinpath (fun c _ => eq_refl) g
                    (sample_session_reachable g E))).
  - vm_compute in E. discriminate.
Defined.

Lemma start_runs_previewed_command_witness :
  match sample_session with
  | Some g =>
      start_ready sample_script sample_Path_exists sample_Path_is_dir
        sample_joinpath g
      /\ exists arguments,
           In (process_start sample_exe arguments)
              (calls (window_after
                        (_start_process sample_exe sample_script sample_root
                           sample_Path_exists sample_Path_is_dir
                           sample_joinpath g)))
           /\ preview_shown g
              = Some (join (lit " ")
                        (map _display_arg (sample_exe :: arguments)))
  | None => False
  end.
Proof.
  destruct (sample_session)
    as [g|] eqn:E.
  - assert (Hready : start_ready sample_script sample_Path_exists
                       sample_Path_is_dir sample_joinpath g).
    { vm_compute in E. injection E as <-.
      split; [reflexivity|]. split; [|split].
      - intros [st [H Hst]]. injection H as <-. now apply Hst.
      - left. split; [reflexivity|].
        split; [vm_compute; discriminate | vm_compute; reflexivity].
      - intros _ _. discriminate. }
    split; [exact Hready|].
    exact (start_runs_previewed_command ascii_todecimal sample_exe
             sample_script sample_root sample_Path_exists sample_Path_is_dir
             sample_joinpath (fun c _ => eq_refl) g
             (sample_session_reachable g E) Hready).
  - vm_compute in E. discriminate.
Defined.
